(** * analysis.py: benchmark charts for the bays29 and brg180 instances

    The script is a straight line of library calls: it loads two CSV tables
    with pandas, draws for each of them a figure with two side-by-side line
    charts through the pyplot state machine, and saves each figure as a PNG.

    The embedding threads one explicit [World] through the calls: the file
    system, the registry of open pyplot figures and the trace of library
    calls.  An uncaught Python exception is the [Raise] outcome, which keeps
    the world as it was when the exception left the script.

    What the libraries do is taken as follows.  A path of the working
    directory holds a CSV text that parses to a table of numeric cells, a
    file of zero bytes, or a PNG image; [pd.read_csv] raises
    [FileNotFoundError] on a path that holds nothing, [EmptyDataError] on
    the zero-byte file and [UnicodeDecodeError] on an image.  [df[key]]
    raises [KeyError] when the header has no such label.
    [plt.tight_layout] computes the ticks of every axis and raises
    [ValueError] when it cannot, as it does when the span of the plotted
    values is no double; which figures it accepts is a parameter,
    [lays_out], of the script and of every theorem about it, except that a
    figure without any point is always accepted.  The working directory is
    writable, so [plt.savefig] always creates or overwrites its file; the
    PNG it writes is kept as the figure it depicts. *)

From Stdlib Require Import ZArith SpecFloat Ascii.
From stdpp Require Import base option list gmap strings.

Local Open Scope string_scope.
Local Open Scope list_scope.

(** ** Data model *)

(** A cell of a numeric benchmark table: an integer ([int64] column) or a
    double ([float64] column); a missing field is the double NaN. *)
Inductive cell : Type :=
  | CInt (n : Z)
  | CFloat (x : spec_float).

Definition NaN : cell := CFloat S754_nan.

(** The table [pd.read_csv] returns: the labels of the header row and the
    data rows, in file order. *)
Record DataFrame : Type := {
  columns : list string;
  rows : list (list cell)
}.

(** One plotted series, as matplotlib's [Line2D] keeps it. *)
Record Line2D : Type := {
  get_xdata : list cell;
  get_ydata : list cell;
  get_label : string
}.

(** One plot area.  [get_geometry] is the [(nrows, ncols, index)] triple the
    area was created with by [plt.subplot]. *)
Record Axes : Type := {
  get_geometry : nat * nat * nat;
  get_lines : list Line2D;
  get_xlabel : string;
  get_ylabel : string;
  get_title : string;
  get_legend : option (list string);
  get_grid : bool
}.

(** A figure: its plot areas in creation order and the index of the current
    one.  [get_figsize = None] stands for the default size of [rcParams]. *)
Record Figure : Type := {
  get_figsize : option (Z * Z);
  get_axes : list Axes;
  sca : nat;
  tight : bool
}.

(** What a path of the working directory holds: a file of zero bytes, a CSV
    text that parses to a table, or a PNG image of a figure. *)
Inductive file : Type :=
  | EmptyFile
  | CsvFile (df : DataFrame)
  | PngFile (img : Figure).

(** The exceptions the library calls of the script can raise. *)
Inductive exn : Type :=
  | FileNotFoundError (path : string)
  | EmptyDataError
  | UnicodeDecodeError
  | KeyError (key : string)
  | ValueError.

(** The library calls, as they are recorded in the trace. *)
Inductive call : Type :=
  | call_use (name : string)
  | call_read_csv (path : string)
  | call_figure
  | call_subplot (index : nat)
  | call_plot (label : string)
  | call_xlabel (s : string)
  | call_ylabel (s : string)
  | call_title (s : string)
  | call_legend
  | call_grid (b : bool)
  | call_tight_layout
  | call_savefig (path : string)
  | call_close.

(** The state of one process run.  [figs] is pyplot's registry of open
    figures, the current one first. *)
Record World : Type := {
  fs : gmap string file;
  backend : option string;
  figs : list Figure;
  trace : list call
}.

(** A fresh interpreter on a given working directory. *)
Definition boot (dir : gmap string file) : World :=
  {| fs := dir; backend := None; figs := []; trace := [] |}.

(** ** The exception monad over the world *)

Inductive outcome (A : Type) : Type :=
  | Ok (a : A) (w : World)
  | Raise (e : exn) (w : World).

Arguments Ok {A} a w.
Arguments Raise {A} e w.

Definition M (A : Type) : Type := World -> outcome A.

#[export] Instance M_ret : MRet M := fun A a w => Ok a w.

#[export] Instance M_bind : MBind M := fun A B k m w =>
  match m w with
  | Ok a w' => k a w'
  | Raise e w' => Raise e w'
  end.

(** The world an outcome ends in. *)
Definition final {A} (o : outcome A) : World :=
  match o with
  | Ok _ w => w
  | Raise _ w => w
  end.

Definition log (c : call) (w : World) : World :=
  {| fs := fs w; backend := backend w; figs := figs w;
     trace := trace w ++ [c] |}.

Definition set_figs (l : list Figure) (w : World) : World :=
  {| fs := fs w; backend := backend w; figs := l; trace := trace w |}.

(** ** pandas *)

Module pd.

(** Position of a label in the header; the first one when it is repeated. *)
Fixpoint get_loc (key : string) (labels : list string) : option nat :=
  match labels with
  | [] => None
  | c :: labels' =>
      if String.eqb c key then Some 0%nat else S <$> get_loc key labels'
  end.

(** The column under a label: one cell per row, in row order; a row that
    is too short gives NaN. *)
Definition column (df : DataFrame) (key : string) : option (list cell) :=
  i ← get_loc key (columns df);
  Some (map (fun r => default NaN (r !! i)) (rows df)).

(** [df[key]] *)
Definition getitem (df : DataFrame) (key : string) : M (list cell) :=
  fun w =>
    match column df key with
    | Some s => Ok s w
    | None => Raise (KeyError key) w
    end.

(** [pd.read_csv(path)] *)
Definition read_csv (path : string) : M DataFrame :=
  fun w =>
    let w := log (call_read_csv path) w in
    match fs w !! path with
    | None => Raise (FileNotFoundError path) w
    | Some EmptyFile => Raise EmptyDataError w
    | Some (PngFile _) => Raise UnicodeDecodeError w
    | Some (CsvFile df) => Ok df w
    end.

End pd.

(** ** matplotlib *)

Module matplotlib.

(** [matplotlib.use(name)] *)
Definition use (name : string) : M unit :=
  fun w =>
    let w := log (call_use name) w in
    Ok tt {| fs := fs w; backend := Some name; figs := figs w;
             trace := trace w |}.

End matplotlib.

Definition new_figure (size : option (Z * Z)) : Figure :=
  {| get_figsize := size; get_axes := []; sca := 0; tight := false |}.

Definition new_axes (g : nat * nat * nat) : Axes :=
  {| get_geometry := g; get_lines := []; get_xlabel := ""; get_ylabel := "";
     get_title := ""; get_legend := None; get_grid := false |}.

Definition geometry_eqb (g h : nat * nat * nat) : bool :=
  let '(a, b, c) := g in
  let '(a', b', c') := h in
  Nat.eqb a a' && Nat.eqb b b' && Nat.eqb c c'.

(** Index of the plot area created with geometry [g], if there is one. *)
Fixpoint find_axes (g : nat * nat * nat) (l : list Axes) : option nat :=
  match l with
  | [] => None
  | a :: l' =>
      if geometry_eqb (get_geometry a) g then Some 0%nat
      else S <$> find_axes g l'
  end.

(** [Figure.add_subplot]: the plot area with this geometry becomes the
    current one; it is created when the figure has none. *)
Definition add_subplot (g : nat * nat * nat) (f : Figure) : Figure :=
  match find_axes g (get_axes f) with
  | Some i =>
      {| get_figsize := get_figsize f; get_axes := get_axes f; sca := i;
         tight := tight f |}
  | None =>
      {| get_figsize := get_figsize f;
         get_axes := get_axes f ++ [new_axes g];
         sca := length (get_axes f); tight := tight f |}
  end.

(** Run [upd] on the current plot area; a figure without plot areas gets
    the single area [subplot(1, 1, 1)] first, as [plt.gca()] does. *)
Definition with_gca (upd : Axes -> Axes) (f : Figure) : Figure :=
  let f := match get_axes f with
           | [] => add_subplot (1, 1, 1)%nat f
           | _ :: _ => f
           end in
  {| get_figsize := get_figsize f; get_axes := alter upd (sca f) (get_axes f);
     sca := sca f; tight := tight f |}.

(** Run [upd] on the current figure; with no figure open a default one is
    created first, as [plt.gcf()] does. *)
Definition with_gcf (upd : Figure -> Figure) (w : World) : World :=
  match figs w with
  | [] => set_figs [upd (new_figure None)] w
  | f :: l => set_figs (upd f :: l) w
  end.

Definition add_line (ln : Line2D) (a : Axes) : Axes :=
  {| get_geometry := get_geometry a; get_lines := get_lines a ++ [ln];
     get_xlabel := get_xlabel a; get_ylabel := get_ylabel a;
     get_title := get_title a; get_legend := get_legend a;
     get_grid := get_grid a |}.

Definition set_xlabel (s : string) (a : Axes) : Axes :=
  {| get_geometry := get_geometry a; get_lines := get_lines a;
     get_xlabel := s; get_ylabel := get_ylabel a;
     get_title := get_title a; get_legend := get_legend a;
     get_grid := get_grid a |}.

Definition set_ylabel (s : string) (a : Axes) : Axes :=
  {| get_geometry := get_geometry a; get_lines := get_lines a;
     get_xlabel := get_xlabel a; get_ylabel := s;
     get_title := get_title a; get_legend := get_legend a;
     get_grid := get_grid a |}.

Definition set_title (s : string) (a : Axes) : Axes :=
  {| get_geometry := get_geometry a; get_lines := get_lines a;
     get_xlabel := get_xlabel a; get_ylabel := get_ylabel a;
     get_title := s; get_legend := get_legend a;
     get_grid := get_grid a |}.

(** An empty label, or one that starts with an underscore, is left out of
    the legend. *)
Definition in_legend (ln : Line2D) : bool :=
  match get_label ln with
  | String c _ => negb (Ascii.eqb c "_"%char)
  | EmptyString => false
  end.

Definition draw_legend (a : Axes) : Axes :=
  {| get_geometry := get_geometry a; get_lines := get_lines a;
     get_xlabel := get_xlabel a; get_ylabel := get_ylabel a;
     get_title := get_title a;
     get_legend := Some (map get_label (List.filter in_legend (get_lines a)));
     get_grid := get_grid a |}.

Definition set_grid (b : bool) (a : Axes) : Axes :=
  {| get_geometry := get_geometry a; get_lines := get_lines a;
     get_xlabel := get_xlabel a; get_ylabel := get_ylabel a;
     get_title := get_title a; get_legend := get_legend a;
     get_grid := b |}.

Definition set_tight (f : Figure) : Figure :=
  {| get_figsize := get_figsize f; get_axes := get_axes f; sca := sca f;
     tight := true |}.

(** All series of a figure, plot area by plot area. *)
Definition series (f : Figure) : list Line2D :=
  concat (map get_lines (get_axes f)).

(** The points of a series, in plotting order. *)
Definition points (ln : Line2D) : list (cell * cell) :=
  zip (get_xdata ln) (get_ydata ln).

(** A figure none of whose series has a point. *)
Definition blank (f : Figure) : bool :=
  forallb (fun ln => Nat.eqb (length (points ln)) 0) (series f).

(** Whether [plt.tight_layout] can place the ticks of a figure: always when
    the figure is blank, and otherwise as the layout engine [lays_out]
    finds. *)
Definition fits (lays_out : Figure -> bool) (f : Figure) : bool :=
  blank f || lays_out f.

Module plt.

(** [plt.figure(figsize=size)]: a new figure, which becomes current. *)
Definition figure (size : Z * Z) : M unit :=
  fun w =>
    let w := log call_figure w in
    Ok tt (set_figs (new_figure (Some size) :: figs w) w).

(** [plt.subplot(nrows, ncols, index)] *)
Definition subplot (nrows ncols index : nat) : M unit :=
  fun w =>
    let w := with_gcf id (log (call_subplot index) w) in
    if (Nat.leb 1 index && Nat.leb index (nrows * ncols))%bool
    then Ok tt (with_gcf (add_subplot (nrows, ncols, index)) w)
    else Raise ValueError w.

(** [plt.plot(x, y, label=label)] *)
Definition plot (x y : list cell) (label : string) : M unit :=
  fun w =>
    let w := with_gcf (with_gca id) (log (call_plot label) w) in
    if Nat.eqb (length x) (length y)
    then
      let ln := {| get_xdata := x; get_ydata := y; get_label := label |} in
      Ok tt (with_gcf (with_gca (add_line ln)) w)
    else Raise ValueError w.

Definition xlabel (s : string) : M unit :=
  fun w => Ok tt (with_gcf (with_gca (set_xlabel s)) (log (call_xlabel s) w)).

Definition ylabel (s : string) : M unit :=
  fun w => Ok tt (with_gcf (with_gca (set_ylabel s)) (log (call_ylabel s) w)).

Definition title (s : string) : M unit :=
  fun w => Ok tt (with_gcf (with_gca (set_title s)) (log (call_title s) w)).

Definition legend : M unit :=
  fun w => Ok tt (with_gcf (with_gca draw_legend) (log call_legend w)).

Definition grid (b : bool) : M unit :=
  fun w => Ok tt (with_gcf (with_gca (set_grid b)) (log (call_grid b) w)).

(** [plt.tight_layout()]: the ticks of the current figure are computed and
    its plot areas are fitted; [ValueError] when the ticks cannot be
    computed, with the figure left as it was. *)
Definition tight_layout (lays_out : Figure -> bool) : M unit :=
  fun w =>
    let w := with_gcf id (log call_tight_layout w) in
    match figs w with
    | f :: _ =>
        if fits lays_out f then Ok tt (with_gcf set_tight w)
        else Raise ValueError w
    | [] => Ok tt w
    end.

(** [plt.savefig(path)]: the current figure is encoded as a PNG and the
    file at [path] is created or overwritten. *)
Definition savefig (path : string) : M unit :=
  fun w =>
    let w := with_gcf id (log (call_savefig path) w) in
    match figs w with
    | f :: _ =>
        Ok tt {| fs := <[path := PngFile f]> (fs w); backend := backend w;
                 figs := figs w; trace := trace w |}
    | [] => Ok tt w
    end.

(** [plt.close()]: the current figure leaves the registry. *)
Definition close : M unit :=
  fun w =>
    let w := log call_close w in
    Ok tt (set_figs (tail (figs w)) w).

End plt.

(** ** A layout engine for the examples *)

(** The value of a finite cell as an integer multiple of 2^-1074, the
    smallest positive double; nothing for an infinity or a NaN. *)
Definition scaled (c : cell) : option Z :=
  match c with
  | CInt n => Some (Z.shiftl n 1074)
  | CFloat (S754_zero _) => Some 0%Z
  | CFloat (S754_finite s m e) =>
      let v := Z.shiftl (Z.pos m) (e + 1074) in
      Some (if s then (- v)%Z else v)
  | CFloat _ => None
  end.

(** Whether the span of the finite values among the cells, their maximum
    minus their minimum, is below 2^1024 and so is a double. *)
Definition span_is_double (cs : list cell) : bool :=
  match omap scaled cs with
  | [] => true
  | v :: vs =>
      let hi := fold_right Z.max v vs in
      let lo := fold_right Z.min v vs in
      Z.ltb (hi - lo) (Z.shiftl 1 (1024 + 1074))
  end.

(** The engine of the examples: it accepts a figure when, in each plot
    area, the span of the x values and the span of the y values are
    doubles.  The examples run it on figures of a few small integers,
    which it accepts as [plt.tight_layout] does, and on a figure with the
    doubles 1e308 and -1e308 in one column, which it rejects as
    [plt.tight_layout] does.  The theorems are about every engine. *)
Definition spans_are_doubles (f : Figure) : bool :=
  forallb
    (fun a =>
       span_is_double (concat (map get_xdata (get_lines a))) &&
       span_is_double (concat (map get_ydata (get_lines a))))
    (get_axes f).

(** ** The script *)

Section script.

(** The figures the layout engine of [plt.tight_layout] accepts. *)
Variable lays_out : Figure -> bool.

(** Lines 13 to 37. *)
Definition render_bays29 (df_bays29 : DataFrame) : M unit :=
  plt.figure (14, 6)%Z;;
  plt.subplot 1 2 1;;
  x ← pd.getitem df_bays29 "Run";
  y ← pd.getitem df_bays29 "2-opt Distance";
  plt.plot x y "2-opt Distance";;
  x ← pd.getitem df_bays29 "Run";
  y ← pd.getitem df_bays29 "Swap Distance";
  plt.plot x y "Swap Distance";;
  plt.xlabel "Run";;
  plt.ylabel "Distance";;
  plt.title "Distances for bays29 Instance";;
  plt.legend;;
  plt.grid true;;
  plt.subplot 1 2 2;;
  x ← pd.getitem df_bays29 "Run";
  y ← pd.getitem df_bays29 "2-opt Time (µs)";
  plt.plot x y "2-opt Time (µs)";;
  x ← pd.getitem df_bays29 "Run";
  y ← pd.getitem df_bays29 "Swap Time (µs)";
  plt.plot x y "Swap Time (µs)";;
  plt.xlabel "Run";;
  plt.ylabel "Time (µs)";;
  plt.title "Times for bays29 Instance";;
  plt.legend;;
  plt.grid true;;
  plt.tight_layout lays_out;;
  plt.savefig "bays29_benchmark.png";;
  plt.close.

(** Lines 40 to 64. *)
Definition render_brg180 (df_brg180 : DataFrame) : M unit :=
  plt.figure (14, 6)%Z;;
  plt.subplot 1 2 1;;
  x ← pd.getitem df_brg180 "Run";
  y ← pd.getitem df_brg180 "2-opt Distance";
  plt.plot x y "2-opt Distance";;
  x ← pd.getitem df_brg180 "Run";
  y ← pd.getitem df_brg180 "Swap Distance";
  plt.plot x y "Swap Distance";;
  plt.xlabel "Run";;
  plt.ylabel "Distance";;
  plt.title "Distances for brg180 Instance";;
  plt.legend;;
  plt.grid true;;
  plt.subplot 1 2 2;;
  x ← pd.getitem df_brg180 "Run";
  y ← pd.getitem df_brg180 "2-opt Time (µs)";
  plt.plot x y "2-opt Time (µs)";;
  x ← pd.getitem df_brg180 "Run";
  y ← pd.getitem df_brg180 "Swap Time (µs)";
  plt.plot x y "Swap Time (µs)";;
  plt.xlabel "Run";;
  plt.ylabel "Time (µs)";;
  plt.title "Times for brg180 Instance";;
  plt.legend;;
  plt.grid true;;
  plt.tight_layout lays_out;;
  plt.savefig "brg180_benchmark.png";;
  plt.close.

(** Lines 6 to 10: the backend is chosen and both tables are loaded. *)
Definition load : M (DataFrame * DataFrame) :=
  matplotlib.use "Agg";;
  df_bays29 ← pd.read_csv "bays29_benchmark_results.csv";
  df_brg180 ← pd.read_csv "brg180_benchmark_results.csv";
  mret (df_bays29, df_brg180).

(** The whole module, top to bottom. *)
Definition analysis : M unit :=
  dfs ← load;
  render_bays29 (fst dfs);;
  render_brg180 (snd dfs).

(** One process run in the working directory [dir]. *)
Definition run (dir : gmap string file) : outcome unit :=
  analysis (boot dir).

(** ** Sample working directories *)

Definition header : list string :=
  ["Run"; "2-opt Distance"; "Swap Distance"; "2-opt Time (µs)";
   "Swap Time (µs)"].

(** The two-run table of the scenario: distances 100, 110 and 95, 105;
    times 50, 40 and 55, 42. *)
Definition df_two_runs : DataFrame :=
  {| columns := header;
     rows := [[CInt 1; CInt 100; CInt 110; CInt 50; CInt 40];
              [CInt 2; CInt 95; CInt 105; CInt 55; CInt 42]] |}.

Definition df_header_only : DataFrame :=
  {| columns := header; rows := [] |}.

(** A table whose header lacks the [Run] column. *)
Definition df_no_run : DataFrame :=
  {| columns := tail header;
     rows := [[CInt 100; CInt 110; CInt 50; CInt 40]] |}.

Definition dir_of (bays29 brg180 : file) : gmap string file :=
  <["bays29_benchmark_results.csv" := bays29]>
    (<["brg180_benchmark_results.csv" := brg180]> ∅).

Definition dir_ok : gmap string file :=
  dir_of (CsvFile df_two_runs) (CsvFile df_two_runs).

(** A two-run table whose first distance column holds the doubles 1e308
    and -1e308: their span, 2e308, is no double. *)
Definition df_huge : DataFrame :=
  {| columns := header;
     rows := [[CInt 1; CFloat (S754_finite false 0x11ccf385ebc8a0 971);
               CInt 110; CInt 50; CInt 40];
              [CInt 2; CFloat (S754_finite true 0x11ccf385ebc8a0 971);
               CInt 105; CInt 55; CInt 42]] |}.

(** The two-run table with a sixth column, [Seed], placed first. *)
Definition df_seed_first : DataFrame :=
  {| columns := "Seed" :: header;
     rows := [[CInt 7; CInt 1; CInt 100; CInt 110; CInt 50; CInt 40];
              [CInt 9; CInt 2; CInt 95; CInt 105; CInt 55; CInt 42]] |}.

(** ** The two blocks as one parametric render *)

(** What differs between the two blocks of the script. *)
Record Instance : Type := {
  title_distance : string;
  title_time : string;
  output : string
}.

Definition bays29 : Instance :=
  {| title_distance := "Distances for bays29 Instance";
     title_time := "Times for bays29 Instance";
     output := "bays29_benchmark.png" |}.

Definition brg180 : Instance :=
  {| title_distance := "Distances for brg180 Instance";
     title_time := "Times for brg180 Instance";
     output := "brg180_benchmark.png" |}.

Definition render (i : Instance) (df : DataFrame) : M unit :=
  plt.figure (14, 6)%Z;;
  plt.subplot 1 2 1;;
  x ← pd.getitem df "Run";
  y ← pd.getitem df "2-opt Distance";
  plt.plot x y "2-opt Distance";;
  x ← pd.getitem df "Run";
  y ← pd.getitem df "Swap Distance";
  plt.plot x y "Swap Distance";;
  plt.xlabel "Run";;
  plt.ylabel "Distance";;
  plt.title (title_distance i);;
  plt.legend;;
  plt.grid true;;
  plt.subplot 1 2 2;;
  x ← pd.getitem df "Run";
  y ← pd.getitem df "2-opt Time (µs)";
  plt.plot x y "2-opt Time (µs)";;
  x ← pd.getitem df "Run";
  y ← pd.getitem df "Swap Time (µs)";
  plt.plot x y "Swap Time (µs)";;
  plt.xlabel "Run";;
  plt.ylabel "Time (µs)";;
  plt.title (title_time i);;
  plt.legend;;
  plt.grid true;;
  plt.tight_layout lays_out;;
  plt.savefig (output i);;
  plt.close.

(** The library calls of one complete render, in order. *)
Definition render_calls (i : Instance) : list call :=
  [call_figure;
   call_subplot 1; call_plot "2-opt Distance"; call_plot "Swap Distance";
   call_xlabel "Run"; call_ylabel "Distance"; call_title (title_distance i);
   call_legend; call_grid true;
   call_subplot 2; call_plot "2-opt Time (µs)"; call_plot "Swap Time (µs)";
   call_xlabel "Run"; call_ylabel "Time (µs)"; call_title (title_time i);
   call_legend; call_grid true;
   call_tight_layout; call_savefig (output i); call_close].

Definition load_calls : list call :=
  [call_use "Agg"; call_read_csv "bays29_benchmark_results.csv";
   call_read_csv "brg180_benchmark_results.csv"].

(** One plot area as a complete render leaves it. *)
Definition plot_area (index : nat) (run : list cell)
    (y1 : list cell) (l1 : string) (y2 : list cell) (l2 : string)
    (ylab ttl : string) : Axes :=
  {| get_geometry := (1, 2, index)%nat;
     get_lines := [{| get_xdata := run; get_ydata := y1; get_label := l1 |};
                   {| get_xdata := run; get_ydata := y2; get_label := l2 |}];
     get_xlabel := "Run"; get_ylabel := ylab; get_title := ttl;
     get_legend := Some [l1; l2]; get_grid := true |}.

(** The figure a complete render saves, from the five columns it reads. *)
Definition chart (i : Instance) (run d1 d2 t1 t2 : list cell) : Figure :=
  {| get_figsize := Some (14, 6)%Z;
     get_axes :=
       [plot_area 1 run d1 "2-opt Distance" d2 "Swap Distance"
          "Distance" (title_distance i);
        plot_area 2 run t1 "2-opt Time (µs)" t2 "Swap Time (µs)"
          "Time (µs)" (title_time i)];
     sca := 1; tight := true |}.

(** The figure as [plt.tight_layout] finds it: the chart before it is
    fitted. *)
Definition draft (i : Instance) (run d1 d2 t1 t2 : list cell) : Figure :=
  {| get_figsize := Some (14, 6)%Z;
     get_axes :=
       [plot_area 1 run d1 "2-opt Distance" d2 "Swap Distance"
          "Distance" (title_distance i);
        plot_area 2 run t1 "2-opt Time (µs)" t2 "Swap Time (µs)"
          "Time (µs)" (title_time i)];
     sca := 1; tight := false |}.

(** ** Vocabulary of the properties *)

(** The five required columns, in the order the script first reads them. *)
Definition required : list string := header.

Definition has_column (df : DataFrame) (key : string) : bool :=
  bool_decide (is_Some (pd.get_loc key (columns df))).

Definition has_columns (df : DataFrame) : bool :=
  forallb (has_column df) required.

(** The first required column the table lacks. *)
Definition first_missing (df : DataFrame) : option string :=
  List.find (fun key => negb (has_column df key)) required.


(** The paths written by the [savefig] calls of a trace, in order. *)
Definition writes (t : list call) : list string :=
  omap (fun c => match c with call_savefig p => Some p | _ => None end) t.

(** Whether a call draws on or saves a figure. *)
Definition is_plt (c : call) : bool :=
  match c with
  | call_use _ | call_read_csv _ => false
  | _ => true
  end.

(** The plot area of a figure at a position of the 1 x 2 grid. *)
Definition subplot_at (index : nat) (f : Figure) : option Axes :=
  List.find (fun a => geometry_eqb (get_geometry a) (1, 2, index)%nat)
    (get_axes f).

(** ** Vocabulary of the outcomes of a run *)

Definition bays29_csv : string := "bays29_benchmark_results.csv".
Definition brg180_csv : string := "brg180_benchmark_results.csv".

(** The exception [pd.read_csv] raises on what a path holds, if any. *)
Definition read_error (path : string) (f : option file) : option exn :=
  match f with
  | None => Some (FileNotFoundError path)
  | Some EmptyFile => Some EmptyDataError
  | Some (PngFile _) => Some UnicodeDecodeError
  | Some (CsvFile _) => None
  end.

(** A column of a table that has it. *)
Definition col (df : DataFrame) (key : string) : list cell :=
  default [] (pd.column df key).

(** The figure a complete render of a table saves. *)
Definition chart_of (i : Instance) (df : DataFrame) : Figure :=
  chart i (col df "Run") (col df "2-opt Distance") (col df "Swap Distance")
    (col df "2-opt Time (µs)") (col df "Swap Time (µs)").

(** The figure a block has drawn from a table when it reaches
    [plt.tight_layout]. *)
Definition draft_of (i : Instance) (df : DataFrame) : Figure :=
  draft i (col df "Run") (col df "2-opt Distance") (col df "Swap Distance")
    (col df "2-opt Time (µs)") (col df "Swap Time (µs)").

(** The error a block raises on a table, if any: [KeyError] for the first
    required column the table lacks, else [ValueError] when the figure
    does not lay out. *)
Definition block_error (i : Instance) (df : DataFrame) : option exn :=
  match first_missing df with
  | Some k => Some (KeyError k)
  | None => if fits lays_out (draft_of i df) then None else Some ValueError
  end.

(** The world once both tables are loaded. *)
Definition loaded (dir : gmap string file) : World :=
  {| fs := dir; backend := Some "Agg"; figs := []; trace := load_calls |}.

(** The world after the bays29 block has completed. *)
Definition bays29_done (dir : gmap string file) (df1 : DataFrame) : World :=
  {| fs := <[output bays29 := PngFile (chart_of bays29 df1)]> dir;
     backend := Some "Agg"; figs := [];
     trace := load_calls ++ render_calls bays29 |}.

(** The world after both blocks have completed. *)
Definition all_done (dir : gmap string file) (df1 df2 : DataFrame) : World :=
  {| fs := <[output brg180 := PngFile (chart_of brg180 df2)]>
             (<[output bays29 := PngFile (chart_of bays29 df1)]> dir);
     backend := Some "Agg"; figs := [];
     trace := load_calls ++ render_calls bays29 ++ render_calls brg180 |}.

(** The five ways a run can end: at either [pd.read_csv], inside either
    block, or after both. *)
Inductive run_spec (dir : gmap string file) : outcome unit -> Prop :=
  | run_bays29_unread e :
      read_error bays29_csv (dir !! bays29_csv) = Some e ->
      run_spec dir
        (Raise e {| fs := dir; backend := Some "Agg"; figs := [];
                    trace := firstn 2 load_calls |})
  | run_brg180_unread df1 e :
      dir !! bays29_csv = Some (CsvFile df1) ->
      read_error brg180_csv (dir !! brg180_csv) = Some e ->
      run_spec dir (Raise e (loaded dir))
  | run_bays29_raises df1 df2 e n f :
      dir !! bays29_csv = Some (CsvFile df1) ->
      dir !! brg180_csv = Some (CsvFile df2) ->
      block_error bays29 df1 = Some e ->
      (n <= 18)%nat ->
      run_spec dir
        (Raise e
           {| fs := dir; backend := Some "Agg"; figs := [f];
              trace := load_calls ++ firstn n (render_calls bays29) |})
  | run_brg180_raises df1 df2 e n f :
      dir !! bays29_csv = Some (CsvFile df1) ->
      dir !! brg180_csv = Some (CsvFile df2) ->
      block_error bays29 df1 = None ->
      block_error brg180 df2 = Some e ->
      (n <= 18)%nat ->
      run_spec dir
        (Raise e
           {| fs := <[output bays29 := PngFile (chart_of bays29 df1)]> dir;
              backend := Some "Agg"; figs := [f];
              trace := load_calls ++ render_calls bays29 ++
                       firstn n (render_calls brg180) |})
  | run_completes df1 df2 :
      dir !! bays29_csv = Some (CsvFile df1) ->
      dir !! brg180_csv = Some (CsvFile df2) ->
      block_error bays29 df1 = None ->
      block_error brg180 df2 = None ->
      run_spec dir (Ok tt (all_done dir df1 df2)).



(** The calls of a complete run, in program order. *)
Definition script_calls : list call :=
  load_calls ++ render_calls bays29 ++ render_calls brg180.

(** * Proofs *)

(** ** The blocks and the parametric render agree *)

Lemma render_bays29_eq df : render_bays29 df = render bays29 df.
Proof. reflexivity. Qed.

Lemma render_brg180_eq df : render_brg180 df = render brg180 df.
Proof. reflexivity. Qed.

Lemma column_length df key c :
  pd.column df key = Some c -> length c = length (rows df).
Proof.
  unfold pd.column. destruct (pd.get_loc key (columns df)); simpl; [|done].
  intros [= <-]. by rewrite length_map.
Qed.

Lemma column_cases df key :
  (exists c, pd.column df key = Some c /\ has_column df key = true) \/
  (pd.column df key = None /\ has_column df key = false).
Proof.
  unfold pd.column, has_column.
  destruct (pd.get_loc key (columns df)) as [n|]; simpl.
  - left. by eexists.
  - by right.
Qed.

Ltac split_column df key c Hc :=
  let Hh := fresh "Hh" in
  destruct (column_cases df key) as [(c & Hc & Hh) | [Hc Hh]];
  rewrite Hh; simpl.

(** ** Symbolic execution of the pyplot calls

    With a figure open, each call is one rewriting step on a world written
    out as a record. *)

Section steps.

Variables (F : gmap string file) (B : option string).
Variables (f : Figure) (G : list Figure) (T : list call).

Lemma figure_step size :
  plt.figure size {| fs := F; backend := B; figs := G; trace := T |} =
  Ok tt {| fs := F; backend := B;
           figs := new_figure (Some size) :: G;
           trace := T ++ [call_figure] |}.
Proof. reflexivity. Qed.

Lemma subplot_step nrows ncols index :
  (Nat.leb 1 index && Nat.leb index (nrows * ncols))%bool = true ->
  plt.subplot nrows ncols index
    {| fs := F; backend := B; figs := f :: G; trace := T |} =
  Ok tt {| fs := F; backend := B;
           figs := add_subplot (nrows, ncols, index) f :: G;
           trace := T ++ [call_subplot index] |}.
Proof. intros H. unfold plt.subplot. cbv zeta. rewrite H. reflexivity. Qed.

Lemma plot_step x y label :
  length x = length y ->
  plt.plot x y label
    {| fs := F; backend := B; figs := f :: G; trace := T |} =
  Ok tt {| fs := F; backend := B;
           figs :=
             with_gca
               (add_line
                  {| get_xdata := x; get_ydata := y; get_label := label |})
               (with_gca id f) :: G;
           trace := T ++ [call_plot label] |}.
Proof.
  intros H. unfold plt.plot. rewrite H, Nat.eqb_refl. reflexivity.
Qed.

Lemma xlabel_step s :
  plt.xlabel s {| fs := F; backend := B; figs := f :: G; trace := T |} =
  Ok tt {| fs := F; backend := B;
           figs := with_gca (set_xlabel s) f :: G;
           trace := T ++ [call_xlabel s] |}.
Proof. reflexivity. Qed.

Lemma ylabel_step s :
  plt.ylabel s {| fs := F; backend := B; figs := f :: G; trace := T |} =
  Ok tt {| fs := F; backend := B;
           figs := with_gca (set_ylabel s) f :: G;
           trace := T ++ [call_ylabel s] |}.
Proof. reflexivity. Qed.

Lemma title_step s :
  plt.title s {| fs := F; backend := B; figs := f :: G; trace := T |} =
  Ok tt {| fs := F; backend := B;
           figs := with_gca (set_title s) f :: G;
           trace := T ++ [call_title s] |}.
Proof. reflexivity. Qed.

Lemma legend_step :
  plt.legend {| fs := F; backend := B; figs := f :: G; trace := T |} =
  Ok tt {| fs := F; backend := B;
           figs := with_gca draw_legend f :: G;
           trace := T ++ [call_legend] |}.
Proof. reflexivity. Qed.

Lemma grid_step b :
  plt.grid b {| fs := F; backend := B; figs := f :: G; trace := T |} =
  Ok tt {| fs := F; backend := B;
           figs := with_gca (set_grid b) f :: G;
           trace := T ++ [call_grid b] |}.
Proof. reflexivity. Qed.

Lemma tight_layout_step :
  fits lays_out f = true ->
  plt.tight_layout lays_out
    {| fs := F; backend := B; figs := f :: G; trace := T |} =
  Ok tt {| fs := F; backend := B; figs := set_tight f :: G;
           trace := T ++ [call_tight_layout] |}.
Proof. intros H. unfold plt.tight_layout. simpl. by rewrite H. Qed.

Lemma tight_layout_raise :
  fits lays_out f = false ->
  plt.tight_layout lays_out
    {| fs := F; backend := B; figs := f :: G; trace := T |} =
  Raise ValueError {| fs := F; backend := B; figs := f :: G;
                      trace := T ++ [call_tight_layout] |}.
Proof. intros H. unfold plt.tight_layout. simpl. by rewrite H. Qed.

Lemma savefig_step path :
  plt.savefig path {| fs := F; backend := B; figs := f :: G; trace := T |} =
  Ok tt {| fs := <[path := PngFile f]> F; backend := B; figs := f :: G;
           trace := T ++ [call_savefig path] |}.
Proof. reflexivity. Qed.

Lemma close_step :
  plt.close {| fs := F; backend := B; figs := f :: G; trace := T |} =
  Ok tt {| fs := F; backend := B; figs := G; trace := T ++ [call_close] |}.
Proof. reflexivity. Qed.

End steps.

Create Rewrite HintDb pyplot.

#[local] Hint Rewrite figure_step xlabel_step ylabel_step title_step
  legend_step grid_step savefig_step close_step : pyplot.
#[local] Hint Rewrite subplot_step using reflexivity : pyplot.
#[local] Hint Rewrite plot_step using congruence : pyplot.

(** The verdict of the layout engine on the figure of the goal, from the
    hypothesis about the draft. *)
Ltac lay_out :=
  match goal with
  | H : fits lays_out _ = true |- _ =>
      rewrite tight_layout_step by exact H
  | H : fits lays_out _ = false |- _ =>
      rewrite tight_layout_raise by exact H
  end.

(** Run a render on a world written out as a record, with the column
    lookups of the table given by hypotheses. *)
Ltac run_render :=
  unfold render, mbind, M_bind, pd.getitem;
  repeat match goal with
         | H : pd.column _ _ = _ |- _ =>
             rewrite H;
             try (let L := fresh "L" in
                  pose proof (column_length _ _ _ H) as L;
                  revert H)
         end;
  intros;
  cbv beta iota;
  repeat (autorewrite with pyplot; cbv beta iota);
  try (lay_out; cbv beta iota; repeat (autorewrite with pyplot; cbv beta iota)).

Lemma render_ok i df w run d1 d2 t1 t2 :
  pd.column df "Run" = Some run ->
  pd.column df "2-opt Distance" = Some d1 ->
  pd.column df "Swap Distance" = Some d2 ->
  pd.column df "2-opt Time (µs)" = Some t1 ->
  pd.column df "Swap Time (µs)" = Some t2 ->
  fits lays_out (draft i run d1 d2 t1 t2) = true ->
  render i df w =
  Ok tt {| fs := <[output i := PngFile (chart i run d1 d2 t1 t2)]> (fs w);
           backend := backend w; figs := figs w;
           trace := trace w ++ render_calls i |}.
Proof.
  intros H0 H1 H2 H3 H4 Hfit. destruct w as [F B G T].
  run_render. simpl. rewrite <- !app_assoc. reflexivity.
Qed.

(** A render whose figure does not lay out raises [ValueError] at
    [plt.tight_layout], before [plt.savefig], and leaves the figure it drew
    in the registry. *)
Lemma render_unfit i df w run d1 d2 t1 t2 :
  pd.column df "Run" = Some run ->
  pd.column df "2-opt Distance" = Some d1 ->
  pd.column df "Swap Distance" = Some d2 ->
  pd.column df "2-opt Time (µs)" = Some t1 ->
  pd.column df "Swap Time (µs)" = Some t2 ->
  fits lays_out (draft i run d1 d2 t1 t2) = false ->
  render i df w =
  Raise ValueError
    {| fs := fs w; backend := backend w;
       figs := draft i run d1 d2 t1 t2 :: figs w;
       trace := trace w ++ firstn 18 (render_calls i) |}.
Proof.
  intros H0 H1 H2 H3 H4 Hfit. destruct w as [F B G T].
  run_render. simpl. rewrite <- !app_assoc. reflexivity.
Qed.

(** A render whose table lacks a required column raises [KeyError] for the
    first such column, before [tight_layout] and [savefig], and leaves the
    figure it opened in the registry. *)
Lemma render_raise i df w k :
  first_missing df = Some k ->
  exists n f,
    (n <= 11)%nat /\
    render i df w =
    Raise (KeyError k)
      {| fs := fs w; backend := backend w; figs := f :: figs w;
         trace := trace w ++ firstn n (render_calls i) |}.
Proof.
  unfold first_missing, required, header. simpl. destruct w as [F B G T].
  split_column df "Run" c0 H0.
  2:{ intros [= <-]. exists 2%nat. eexists. split; [lia|].
      run_render. simpl. rewrite <- !app_assoc. reflexivity. }
  split_column df "2-opt Distance" c1 H1.
  2:{ intros [= <-]. exists 2%nat. eexists. split; [lia|].
      run_render. simpl. rewrite <- !app_assoc. reflexivity. }
  split_column df "Swap Distance" c2 H2.
  2:{ intros [= <-]. exists 3%nat. eexists. split; [lia|].
      run_render. simpl. rewrite <- !app_assoc. reflexivity. }
  split_column df "2-opt Time (µs)" c3 H3.
  2:{ intros [= <-]. exists 10%nat. eexists. split; [lia|].
      run_render. simpl. rewrite <- !app_assoc. reflexivity. }
  split_column df "Swap Time (µs)" c4 H4.
  2:{ intros [= <-]. exists 11%nat. eexists. split; [lia|].
      run_render. simpl. rewrite <- !app_assoc. reflexivity. }
  discriminate.
Qed.

(** ** The outcomes of a process run *)

Lemma read_csv_ok F B G T path df :
  F !! path = Some (CsvFile df) ->
  pd.read_csv path {| fs := F; backend := B; figs := G; trace := T |} =
  Ok df {| fs := F; backend := B; figs := G;
           trace := T ++ [call_read_csv path] |}.
Proof. intros H. unfold pd.read_csv. simpl. rewrite H. reflexivity. Qed.

Lemma read_csv_raise F B G T path e :
  read_error path (F !! path) = Some e ->
  pd.read_csv path {| fs := F; backend := B; figs := G; trace := T |} =
  Raise e {| fs := F; backend := B; figs := G;
             trace := T ++ [call_read_csv path] |}.
Proof.
  unfold pd.read_csv. simpl.
  destruct (F !! path) as [[]|]; simpl; intros [= <-]; reflexivity.
Qed.

Lemma read_error_csv path f :
  read_error path f = None -> exists df, f = Some (CsvFile df).
Proof. destruct f as [[]|]; simpl; intros; try discriminate. eauto. Qed.

Lemma load_ok dir df1 df2 :
  dir !! bays29_csv = Some (CsvFile df1) ->
  dir !! brg180_csv = Some (CsvFile df2) ->
  load (boot dir) = Ok (df1, df2) (loaded dir).
Proof.
  intros H1 H2. unfold load, boot, mbind, M_bind, matplotlib.use. simpl.
  fold bays29_csv brg180_csv.
  rewrite (read_csv_ok _ _ _ _ _ _ H1), (read_csv_ok _ _ _ _ _ _ H2).
  reflexivity.
Qed.

Lemma load_raise_bays29 dir e :
  read_error bays29_csv (dir !! bays29_csv) = Some e ->
  load (boot dir) =
  Raise e {| fs := dir; backend := Some "Agg"; figs := [];
             trace := firstn 2 load_calls |}.
Proof.
  intros H1. unfold load, boot, mbind, M_bind, matplotlib.use. simpl.
  fold bays29_csv. rewrite (read_csv_raise _ _ _ _ _ _ H1). reflexivity.
Qed.

Lemma load_raise_brg180 dir df1 e :
  dir !! bays29_csv = Some (CsvFile df1) ->
  read_error brg180_csv (dir !! brg180_csv) = Some e ->
  load (boot dir) = Raise e (loaded dir).
Proof.
  intros H1 H2. unfold load, boot, mbind, M_bind, matplotlib.use. simpl.
  fold bays29_csv brg180_csv.
  rewrite (read_csv_ok _ _ _ _ _ _ H1), (read_csv_raise _ _ _ _ _ _ H2).
  reflexivity.
Qed.

Lemma has_columns_first_missing df :
  has_columns df = true <-> first_missing df = None.
Proof.
  unfold has_columns, first_missing, required, header. simpl.
  destruct (has_column df "Run"), (has_column df "2-opt Distance"),
    (has_column df "Swap Distance"), (has_column df "2-opt Time (µs)"),
    (has_column df "Swap Time (µs)"); simpl; split; congruence.
Qed.

Lemma has_column_col df key :
  has_column df key = true -> pd.column df key = Some (col df key).
Proof.
  unfold col. destruct (column_cases df key) as [(c & -> & _) | [_ ->]];
    [reflexivity | discriminate].
Qed.

Lemma first_missing_spec df k :
  first_missing df = Some k -> k ∈ required /\ pd.column df k = None.
Proof.
  unfold first_missing. intros H. apply find_some in H as [Hin Hk].
  split; [by apply list_elem_of_In|].
  destruct (column_cases df k) as [(c & _ & Hc) | [Hc _]]; [|done].
  rewrite Hc in Hk. discriminate.
Qed.

Lemma has_columns_false df :
  has_columns df = false -> exists k, first_missing df = Some k.
Proof.
  intros H. destruct (first_missing df) as [k|] eqn:E; [eauto|].
  apply has_columns_first_missing in E. congruence.
Qed.

(** What [block_error] says, case by case. *)
Lemma block_error_none i df :
  block_error i df = None <->
  has_columns df = true /\ fits lays_out (draft_of i df) = true.
Proof.
  unfold block_error. rewrite has_columns_first_missing.
  destruct (first_missing df); [split; [|intros [? _]]; discriminate|].
  destruct (fits lays_out (draft_of i df)); split; try done.
  by intros [_ ?].
Qed.

Lemma block_error_key i df k :
  first_missing df = Some k -> block_error i df = Some (KeyError k).
Proof. unfold block_error. by intros ->. Qed.

Lemma block_error_value i df :
  has_columns df = true -> fits lays_out (draft_of i df) = false ->
  block_error i df = Some ValueError.
Proof.
  unfold block_error. rewrite has_columns_first_missing. by intros -> ->.
Qed.

Lemma block_error_some i df e :
  block_error i df = Some e ->
  (exists k, first_missing df = Some k /\ e = KeyError k) \/
  (has_columns df = true /\ fits lays_out (draft_of i df) = false /\
   e = ValueError).
Proof.
  unfold block_error. destruct (first_missing df) as [k|] eqn:M.
  - intros [= <-]. left. eauto.
  - apply has_columns_first_missing in M.
    destruct (fits lays_out (draft_of i df)); [discriminate|].
    intros [= <-]. by right.
Qed.

Lemma has_columns_cols df :
  has_columns df = true ->
  pd.column df "Run" = Some (col df "Run") /\
  pd.column df "2-opt Distance" = Some (col df "2-opt Distance") /\
  pd.column df "Swap Distance" = Some (col df "Swap Distance") /\
  pd.column df "2-opt Time (µs)" = Some (col df "2-opt Time (µs)") /\
  pd.column df "Swap Time (µs)" = Some (col df "Swap Time (µs)").
Proof.
  unfold has_columns, required, header. simpl.
  rewrite !andb_true_iff. intros (H0 & H1 & H2 & H3 & H4 & _).
  repeat split; by apply has_column_col.
Qed.

(** A render of a table with the five columns whose figure lays out
    completes. *)
Lemma render_complete i df w :
  has_columns df = true ->
  fits lays_out (draft_of i df) = true ->
  render i df w =
  Ok tt {| fs := <[output i := PngFile (chart_of i df)]> (fs w);
           backend := backend w; figs := figs w;
           trace := trace w ++ render_calls i |}.
Proof.
  intros C Hfit. destruct (has_columns_cols _ C) as (H0 & H1 & H2 & H3 & H4).
  by apply render_ok.
Qed.

(** A render raises the error of its block and nothing has been saved by
    then; the figure it opened is still in the registry. *)
Lemma render_fails i df w e :
  block_error i df = Some e ->
  exists n f,
    (n <= 18)%nat /\
    render i df w =
    Raise e
      {| fs := fs w; backend := backend w; figs := f :: figs w;
         trace := trace w ++ firstn n (render_calls i) |}.
Proof.
  intros He.
  destruct (block_error_some _ _ _ He) as [(k & M & ->)|(C & Hfit & ->)].
  - destruct (render_raise i df w k M) as (n & f & Hn & Hr).
    exists n, f. split; [lia|done].
  - destruct (has_columns_cols _ C) as (H0 & H1 & H2 & H3 & H4).
    exists 18%nat, (draft_of i df). split; [lia|].
    by apply render_unfit.
Qed.

Lemma render_succeeds i df w :
  block_error i df = None ->
  render i df w =
  Ok tt {| fs := <[output i := PngFile (chart_of i df)]> (fs w);
           backend := backend w; figs := figs w;
           trace := trace w ++ render_calls i |}.
Proof.
  intros He. apply block_error_none in He as [C Hfit].
  by apply render_complete.
Qed.

Lemma bind_ok {A B} (m : M A) (k : A -> M B) w a w' :
  m w = Ok a w' -> (m ≫= k) w = k a w'.
Proof. unfold mbind, M_bind. by intros ->. Qed.

Lemma bind_raise {A B} (m : M A) (k : A -> M B) w e w' :
  m w = Raise e w' -> (m ≫= k) w = Raise e w'.
Proof. unfold mbind, M_bind. by intros ->. Qed.

Lemma render_bays29_loaded dir df1 :
  block_error bays29 df1 = None ->
  render_bays29 df1 (loaded dir) = Ok tt (bays29_done dir df1).
Proof.
  intros H. rewrite render_bays29_eq, (render_succeeds _ _ _ H). reflexivity.
Qed.

Lemma render_brg180_after dir df1 df2 :
  block_error brg180 df2 = None ->
  render_brg180 df2 (bays29_done dir df1) = Ok tt (all_done dir df1 df2).
Proof.
  intros H. rewrite render_brg180_eq, (render_succeeds _ _ _ H).
  reflexivity.
Qed.

Lemma run_loaded dir df1 df2 :
  dir !! bays29_csv = Some (CsvFile df1) ->
  dir !! brg180_csv = Some (CsvFile df2) ->
  run dir = (render_bays29 df1 ≫= fun _ => render_brg180 df2) (loaded dir).
Proof.
  intros H1 H2. unfold run, analysis.
  rewrite (bind_ok _ _ _ _ _ (load_ok _ _ _ H1 H2)). reflexivity.
Qed.

Lemma run_ok dir df1 df2 :
  dir !! bays29_csv = Some (CsvFile df1) ->
  dir !! brg180_csv = Some (CsvFile df2) ->
  block_error bays29 df1 = None ->
  block_error brg180 df2 = None ->
  run dir = Ok tt (all_done dir df1 df2).
Proof.
  intros H1 H2 C1 C2. rewrite (run_loaded _ _ _ H1 H2).
  rewrite (bind_ok _ _ _ _ _ (render_bays29_loaded _ _ C1)).
  by apply render_brg180_after.
Qed.

Lemma run_bays29_raise dir df1 df2 e :
  dir !! bays29_csv = Some (CsvFile df1) ->
  dir !! brg180_csv = Some (CsvFile df2) ->
  block_error bays29 df1 = Some e ->
  exists n f,
    (n <= 18)%nat /\
    run dir =
    Raise e
      {| fs := dir; backend := Some "Agg"; figs := [f];
         trace := load_calls ++ firstn n (render_calls bays29) |}.
Proof.
  intros H1 H2 M1.
  destruct (render_fails bays29 df1 (loaded dir) e M1) as (n & f & Hn & Hr).
  exists n, f. split; [done|].
  rewrite (run_loaded _ _ _ H1 H2), render_bays29_eq.
  apply (bind_raise _ _ _ _ _ Hr).
Qed.

Lemma run_brg180_raise dir df1 df2 e :
  dir !! bays29_csv = Some (CsvFile df1) ->
  dir !! brg180_csv = Some (CsvFile df2) ->
  block_error bays29 df1 = None ->
  block_error brg180 df2 = Some e ->
  exists n f,
    (n <= 18)%nat /\
    run dir =
    Raise e
      {| fs := <[output bays29 := PngFile (chart_of bays29 df1)]> dir;
         backend := Some "Agg"; figs := [f];
         trace := load_calls ++ render_calls bays29 ++
                  firstn n (render_calls brg180) |}.
Proof.
  intros H1 H2 C1 M2.
  destruct (render_fails brg180 df2 (bays29_done dir df1) e M2)
    as (n & f & Hn & Hr).
  exists n, f. split; [done|].
  rewrite (run_loaded _ _ _ H1 H2).
  rewrite (bind_ok _ _ _ _ _ (render_bays29_loaded _ _ C1)).
  rewrite render_brg180_eq. apply Hr.
Qed.

(** Every run ends in one of the five ways. *)
Lemma run_sound dir : run_spec dir (run dir).
Proof.
  destruct (read_error bays29_csv (dir !! bays29_csv)) as [e|] eqn:E1.
  { unfold run, analysis.
    rewrite (bind_raise _ _ _ _ _ (load_raise_bays29 _ _ E1)).
    by constructor. }
  apply read_error_csv in E1 as [df1 H1].
  destruct (read_error brg180_csv (dir !! brg180_csv)) as [e|] eqn:E2.
  { unfold run, analysis.
    rewrite (bind_raise _ _ _ _ _ (load_raise_brg180 _ _ _ H1 E2)).
    by econstructor. }
  apply read_error_csv in E2 as [df2 H2].
  destruct (block_error bays29 df1) as [e|] eqn:M1.
  { destruct (run_bays29_raise _ _ _ _ H1 H2 M1) as (n & f & Hn & ->).
    by econstructor. }
  destruct (block_error brg180 df2) as [e|] eqn:M2.
  { destruct (run_brg180_raise _ _ _ _ H1 H2 M1 M2) as (n & f & Hn & ->).
    by eapply (run_brg180_raises dir df1 df2 e n f). }
  rewrite (run_ok _ _ _ H1 H2 M1 M2). by constructor.
Qed.

(** ** Facts about traces and written paths *)

Lemma writes_app t1 t2 : writes (t1 ++ t2) = writes t1 ++ writes t2.
Proof. unfold writes. apply omap_app. Qed.

Lemma writes_load_calls n : writes (firstn n load_calls) = [].
Proof. do 4 (destruct n as [|n]; [reflexivity|]). reflexivity. Qed.

(** A render that stops before [plt.savefig] has not saved. *)
Lemma writes_render_prefix i n :
  (n <= 18)%nat -> writes (firstn n (render_calls i)) = [].
Proof. intros H. do 19 (destruct n as [|n]; [reflexivity|]). lia. Qed.

Lemma writes_render_calls i : writes (render_calls i) = [output i].
Proof. reflexivity. Qed.

Lemma writes_load : writes load_calls = [].
Proof. reflexivity. Qed.

(** Compute the written paths of the trace of a world given as a record. *)
Ltac count_writes :=
  cbn [trace fs figs backend loaded bays29_done all_done final];
  rewrite ?writes_app, ?writes_load, ?writes_load_calls,
    ?writes_render_calls, ?writes_render_prefix by done;
  cbn [app].

(** ** C1: a table that lacks a required column *)

(** C1 (amended): a block given a table that lacks a required column
    raises [KeyError] for a required column the table lacks and leaves the
    directory as it was, so the PNG of that instance is not written.  When
    both tables load and the bays29 table lacks a column, no file is
    written at all.  When the bays29 block completes and only the brg180
    table lacks a column, [bays29_benchmark.png] has been written before
    the error and [brg180_benchmark.png] is not written. *)
Theorem missing_column_raises dir df1 df2 :
  dir !! bays29_csv = Some (CsvFile df1) ->
  dir !! brg180_csv = Some (CsvFile df2) ->
  (has_columns df1 = false ->
     exists k w,
       run dir = Raise (KeyError k) w /\
       k ∈ required /\ pd.column df1 k = None /\
       writes (trace w) = [] /\ fs w = dir) /\
  (has_columns df1 = true ->
   fits lays_out (draft_of bays29 df1) = true ->
   has_columns df2 = false ->
     exists k w,
       run dir = Raise (KeyError k) w /\
       k ∈ required /\ pd.column df2 k = None /\
       writes (trace w) = [output bays29] /\
       fs w = <[output bays29 := PngFile (chart_of bays29 df1)]> dir /\
       fs w !! output brg180 = dir !! output brg180) /\
  (forall df w,
     has_columns df = false ->
     exists k,
       k ∈ required /\ pd.column df k = None /\
       (exists w', render_bays29 df w = Raise (KeyError k) w' /\
                   fs w' = fs w) /\
       (exists w', render_brg180 df w = Raise (KeyError k) w' /\
                   fs w' = fs w)).
Proof.
  intros H1 H2. split; [|split].
  - intros C1. destruct (has_columns_false _ C1) as [k M1].
    destruct (first_missing_spec _ _ M1) as [Hk Hc].
    destruct (run_bays29_raise _ _ _ _ H1 H2 (block_error_key bays29 _ _ M1))
      as (n & f & Hn & Hr).
    eexists k, _. split; [exact Hr|].
    count_writes. done.
  - intros C1 F1 C2. destruct (has_columns_false _ C2) as [k M2].
    destruct (first_missing_spec _ _ M2) as [Hk Hc].
    assert (E1 : block_error bays29 df1 = None)
      by (by apply block_error_none).
    destruct (run_brg180_raise _ _ _ _ H1 H2 E1 (block_error_key brg180 _ _ M2))
      as (n & f & Hn & Hr).
    eexists k, _. split; [exact Hr|].
    count_writes. repeat split; try done.
    apply lookup_insert_ne. discriminate.
  - intros df w C. destruct (has_columns_false _ C) as [k M].
    destruct (first_missing_spec _ _ M) as [Hk Hc].
    exists k. split; [done|]. split; [done|].
    rewrite render_bays29_eq, render_brg180_eq. split.
    + destruct (render_raise bays29 df w k M) as (n & f & _ & ->). eauto.
    + destruct (render_raise brg180 df w k M) as (n & f & _ & ->). eauto.
Qed.

(** ** C2: an input path that does not exist *)

(** C2 (amended): when at least one of the two input paths does not exist,
    the run raises an error and writes no file.  The error is
    [FileNotFoundError] for [bays29_benchmark_results.csv] when that path
    does not exist, and [FileNotFoundError] for
    [brg180_benchmark_results.csv] when the bays29 file loads as a table.
    A bays29 file that exists but does not parse raises its own error
    first, [EmptyDataError] for a file of zero bytes and
    [UnicodeDecodeError] for an image, and the brg180 path is then never
    opened. *)
Theorem missing_input_raises dir :
  dir !! bays29_csv = None \/ dir !! brg180_csv = None ->
  exists e w,
    run dir = Raise e w /\
    writes (trace w) = [] /\ fs w = dir /\
    (dir !! bays29_csv = None -> e = FileNotFoundError bays29_csv) /\
    (forall df, dir !! bays29_csv = Some (CsvFile df) ->
                e = FileNotFoundError brg180_csv) /\
    (dir !! bays29_csv = Some EmptyFile -> e = EmptyDataError) /\
    (forall img, dir !! bays29_csv = Some (PngFile img) ->
                 e = UnicodeDecodeError) /\
    (forall e', read_error bays29_csv (dir !! bays29_csv) = Some e' ->
                e = e' /\ call_read_csv brg180_csv ∉ trace w).
Proof.
  intros Hmiss.
  destruct (read_error bays29_csv (dir !! bays29_csv)) as [e|] eqn:E1.
  - exists e. eexists. split.
    { unfold run, analysis.
      apply (bind_raise _ _ _ _ _ (load_raise_bays29 _ _ E1)). }
    repeat split; try done.
    + intros H. rewrite H in E1. simpl in E1. congruence.
    + intros df H. rewrite H in E1. discriminate.
    + intros H. rewrite H in E1. simpl in E1. congruence.
    + intros img H. rewrite H in E1. simpl in E1. congruence.
    + congruence.
    + simpl. rewrite !elem_of_cons.
      intros [?|[?|Hin]]; [discriminate..|by apply elem_of_nil in Hin].
  - apply read_error_csv in E1 as [df1 H1].
    destruct Hmiss as [H|H2]; [congruence|].
    exists (FileNotFoundError brg180_csv). eexists. split.
    { unfold run, analysis.
      refine (bind_raise _ _ _ _ _ (load_raise_brg180 _ df1 _ H1 _)).
      rewrite H2. reflexivity. }
    repeat split; try done; congruence.
Qed.

(** ** C3: one point per row, in row order *)





(** ** C4: the two renders run one after the other *)

Lemma load_inv dir df1 df2 w1 :
  load (boot dir) = Ok (df1, df2) w1 ->
  dir !! bays29_csv = Some (CsvFile df1) /\
  dir !! brg180_csv = Some (CsvFile df2) /\
  w1 = loaded dir.
Proof.
  intros H.
  destruct (read_error bays29_csv (dir !! bays29_csv)) as [e|] eqn:E1.
  { rewrite (load_raise_bays29 _ _ E1) in H. discriminate. }
  apply read_error_csv in E1 as [d1 H1].
  destruct (read_error brg180_csv (dir !! brg180_csv)) as [e|] eqn:E2.
  { rewrite (load_raise_brg180 _ _ _ H1 E2) in H. discriminate. }
  apply read_error_csv in E2 as [d2 H2].
  rewrite (load_ok _ _ _ H1 H2) in H. injection H as <- <- <-. done.
Qed.

Lemma run_trace_prefix dir :
  exists n, trace (final (run dir)) = firstn n script_calls.
Proof.
  destruct (run_sound dir) as [e ?|df1 e ? ?|df1 df2 e n f ? ? ? ?
                              |df1 df2 e n f ? ? ? ? ?|df1 df2 ? ? ? ?].
  - by exists 2%nat.
  - by exists 3%nat.
  - exists (3 + n)%nat. cbn [final trace]. unfold script_calls.
    change (firstn (3 + n) (load_calls ++ ?l))
      with (load_calls ++ firstn n l).
    rewrite take_app_le by (simpl; lia). reflexivity.
  - exists (23 + n)%nat. reflexivity.
  - by exists (length script_calls).
Qed.

(** C4: the calls of every run are an initial part of one fixed sequence:
    the loads, then the bays29 block, then the brg180 block.  A run that
    completes has run the bays29 block to its end and then the brg180 block
    from the world the bays29 block left.  When the bays29 block raises, the
    run ends with that error in that world, inside the bays29 block: no
    call of the brg180 block is made. *)
Theorem renders_run_in_order dir :
  (exists n, trace (final (run dir)) = firstn n script_calls) /\
  (forall w, run dir = Ok tt w ->
     exists df1 df2 w1 w2,
       load (boot dir) = Ok (df1, df2) w1 /\
       render_bays29 df1 w1 = Ok tt w2 /\
       render_brg180 df2 w2 = Ok tt w /\
       trace w = script_calls) /\
  (forall df1 df2 w1 e w2,
     load (boot dir) = Ok (df1, df2) w1 ->
     render_bays29 df1 w1 = Raise e w2 ->
     run dir = Raise e w2 /\
     exists n, (n < length (render_calls bays29))%nat /\
       trace w2 = load_calls ++ firstn n (render_calls bays29)).
Proof.
  split; [apply run_trace_prefix|]. split.
  - intros w Hw.
    destruct (run_sound dir) as [e ?|df1 e ? ?|df1 df2 e n f ? ? ? ?
                                |df1 df2 e n f ? ? ? ? ?|df1 df2 H1 H2 C1 C2];
      try discriminate.
    injection Hw as <-.
    exists df1, df2, (loaded dir), (bays29_done dir df1).
    split; [by apply load_ok|].
    split; [by apply render_bays29_loaded|].
    split; [by apply render_brg180_after|done].
  - intros df1 df2 w1 e w2 Hl Hr.
    destruct (load_inv _ _ _ _ Hl) as (H1 & H2 & ->).
    split.
    { rewrite (run_loaded _ _ _ H1 H2). apply (bind_raise _ _ _ _ _ Hr). }
    destruct (block_error bays29 df1) as [e'|] eqn:M1.
    + rewrite render_bays29_eq in Hr.
      destruct (render_fails bays29 df1 (loaded dir) e' M1)
        as (n & f & Hn & Hr').
      rewrite Hr' in Hr. injection Hr as <- <-.
      exists n. split; [simpl; lia|done].
    + rewrite (render_bays29_loaded _ _ M1) in Hr. discriminate.
Qed.

(** ** C5: figures and the error path *)

(** C5 (amended): a block that completes leaves the registry of open
    figures as it found it, so the figure it drew is released before the
    next block begins, and a run that completes ends with no figure open.
    A block that raises makes no release: the figure it opened is still in
    the registry when the error leaves the script. *)
Theorem figures_released_on_success dir df w :
  (forall w', render_bays29 df w = Ok tt w' \/ render_brg180 df w = Ok tt w' ->
     figs w' = figs w) /\
  (forall e w', render_bays29 df w = Raise e w' \/
                render_brg180 df w = Raise e w' ->
     exists f, figs w' = f :: figs w) /\
  (forall w', run dir = Ok tt w' -> figs w' = []).
Proof.
  assert (Hblock : forall i : Instance,
    (forall w', render i df w = Ok tt w' -> figs w' = figs w) /\
    (forall e w', render i df w = Raise e w' ->
       exists f, figs w' = f :: figs w)).
  { intros i. destruct (block_error i df) as [e0|] eqn:M.
    - destruct (render_fails i df w e0 M) as (n & f & _ & Hr).
      rewrite Hr. split; [discriminate|].
      intros e w' [= <- <-]. by exists f.
    - rewrite (render_succeeds _ _ _ M). split; [|discriminate].
      by intros w' [= <-]. }
  rewrite render_bays29_eq, render_brg180_eq.
  split; [|split].
  - intros w' [H|H]; by eapply Hblock.
  - intros e w' [H|H]; by eapply Hblock.
  - intros w' Hw.
    destruct (run_sound dir) as [e ?|df1 e ? ?|df1 df2 e n f ? ? ? ?
                                |df1 df2 e n f ? ? ? ? ?|df1 df2 ? ? ? ?];
      try discriminate.
    by injection Hw as <-.
Qed.

(** ** C6: a table with a header and no rows *)

Lemma col_no_rows df key : rows df = [] -> col df key = [].
Proof.
  intros H. unfold col, pd.column.
  destruct (pd.get_loc key (columns df)); simpl; [|done]. by rewrite H.
Qed.

Lemma chart_of_no_rows i df :
  rows df = [] -> chart_of i df = chart i [] [] [] [] [].
Proof. intros H. unfold chart_of. by rewrite !col_no_rows. Qed.

(** The figure drawn from a table without rows is blank, so it lays out
    whatever the engine. *)
Lemma fits_no_rows i df :
  rows df = [] -> fits lays_out (draft_of i df) = true.
Proof. intros H. unfold draft_of. by rewrite !col_no_rows. Qed.

(** C6: for a table that has the five required columns and no row, each of
    the two blocks completes in any world and saves the chart with its two
    plot areas and no point in any of the four series; a run on two such
    loaded tables, or on one of them next to a table whose block
    completes, completes as well. *)
Theorem header_only_renders df :
  has_columns df = true ->
  rows df = [] ->
  (forall w, exists w',
     render_bays29 df w = Ok tt w' /\
     fs w' !! "bays29_benchmark.png" =
       Some (PngFile (chart bays29 [] [] [] [] []))) /\
  (forall w, exists w',
     render_brg180 df w = Ok tt w' /\
     fs w' !! "brg180_benchmark.png" =
       Some (PngFile (chart brg180 [] [] [] [] []))) /\
  (forall i, length (get_axes (chart i [] [] [] [] [])) = 2%nat /\
     forall ln, ln ∈ series (chart i [] [] [] [] []) -> points ln = []) /\
  (forall dir, 
     dir !! bays29_csv = Some (CsvFile df) ->
     dir !! brg180_csv = Some (CsvFile df) ->
     exists w, run dir = Ok tt w) /\
  (forall dir df',
     has_columns df' = true ->
     (dir !! bays29_csv = Some (CsvFile df) /\
      dir !! brg180_csv = Some (CsvFile df') /\
      fits lays_out (draft_of brg180 df') = true) \/
     (dir !! bays29_csv = Some (CsvFile df') /\
      dir !! brg180_csv = Some (CsvFile df) /\
      fits lays_out (draft_of bays29 df') = true) ->
     exists w, run dir = Ok tt w).
Proof.
  intros C R.
  assert (E : forall i, block_error i df = None).
  { intros i. apply block_error_none. split; [done|by apply fits_no_rows]. }
  repeat split.
  - intros w. eexists. split.
    + rewrite render_bays29_eq. by apply render_succeeds.
    + simpl. rewrite (chart_of_no_rows _ _ R). apply lookup_insert_eq.
  - intros w. eexists. split.
    + rewrite render_brg180_eq. by apply render_succeeds.
    + simpl. rewrite (chart_of_no_rows _ _ R). apply lookup_insert_eq.
  - intros ln Hln. cbn in Hln. rewrite !elem_of_cons in Hln.
    destruct Hln as [->|[->|[->|[->|Hnil]]]];
      [reflexivity..| by apply elem_of_nil in Hnil].
  - intros dir H1 H2. eexists. by eapply run_ok.
  - intros dir df' C' [(H1 & H2 & F')|(H1 & H2 & F')]; eexists;
      eapply run_ok; try done; by apply block_error_none.
Qed.

(** ** C7: the output files and a second run *)

Lemma all_done_lookup_bays29 dir df1 df2 :
  fs (all_done dir df1 df2) !! output bays29 =
  Some (PngFile (chart_of bays29 df1)).
Proof.
  simpl. rewrite lookup_insert_ne by discriminate. apply lookup_insert_eq.
Qed.

Lemma all_done_lookup_brg180 dir df1 df2 :
  fs (all_done dir df1 df2) !! output brg180 =
  Some (PngFile (chart_of brg180 df2)).
Proof. apply lookup_insert_eq. Qed.

(** Apart from the two PNG paths, a completed run leaves every path as it
    was. *)
Lemma all_done_lookup_other dir df1 df2 p :
  p ≠ output bays29 -> p ≠ output brg180 ->
  fs (all_done dir df1 df2) !! p = dir !! p.
Proof. intros N1 N2. simpl. by rewrite !lookup_insert_ne. Qed.



(** ** C8: the label of the time axis *)

(** Every path a run has saved to holds the chart of the table of its
    instance, and that table has the five required columns. *)
Lemma saved_images dir p :
  p ∈ writes (trace (final (run dir))) ->
  exists i df,
    (i = bays29 \/ i = brg180) /\ p = output i /\
    has_columns df = true /\
    fs (final (run dir)) !! p = Some (PngFile (chart_of i df)).
Proof.
  destruct (run_sound dir) as [e ?|df1 e ? ?|df1 df2 e n f ? ? ? ?
                              |df1 df2 e n f ? ? C1 ? ?|df1 df2 ? ? C1 C2];
    count_writes; intros Hp.
  - by apply elem_of_nil in Hp.
  - by apply elem_of_nil in Hp.
  - by apply elem_of_nil in Hp.
  - apply list_elem_of_singleton in Hp as ->.
    apply block_error_none in C1 as [C1 _].
    exists bays29, df1. repeat split; [by left|done|apply lookup_insert_eq].
  - apply block_error_none in C1 as [C1 _].
    apply block_error_none in C2 as [C2 _].
    rewrite !elem_of_cons in Hp. destruct Hp as [->|[->|Hnil]].
    + exists bays29, df1.
      repeat split; [by left|done|apply all_done_lookup_bays29].
    + exists brg180, df2.
      repeat split; [by right|done|apply all_done_lookup_brg180].
    + by apply elem_of_nil in Hnil.
Qed.

(** C8 (amended): every figure a run saves has a right plot area whose
    y-axis label is the string [Time (µs)]. *)
Theorem time_axis_label dir p :
  p ∈ writes (trace (final (run dir))) ->
  exists img a,
    fs (final (run dir)) !! p = Some (PngFile img) /\
    subplot_at 2 img = Some a /\
    get_ylabel a = "Time (µs)".
Proof.
  intros Hp. destruct (saved_images dir p Hp) as (i & df & _ & _ & _ & Hf).
  eexists _, _. split; [exact Hf|]. split; reflexivity.
Qed.

(** ** C9: both tables are loaded before anything is drawn or saved *)

Lemma render_calls_plt i : forallb is_plt (render_calls i) = true.
Proof. reflexivity. Qed.

Lemma forallb_take {A} (p : A -> bool) n l :
  forallb p l = true -> forallb p (firstn n l) = true.
Proof.
  revert n. induction l as [|x l IH]; intros [|n]; simpl; try done.
  rewrite !andb_true_iff. intros [? ?]. split; [done|by apply IH].
Qed.

Lemma load_calls_not_plt n c :
  c ∈ firstn n load_calls -> is_plt c = false.
Proof.
  intros H.
  assert (Hin : c ∈ load_calls).
  { by apply (subseteq_take n). }
  unfold load_calls in Hin.
  repeat match goal with
         | H : _ ∈ _ :: _ |- _ => apply elem_of_cons in H as [->|H]
         | H : _ ∈ [] |- _ => by apply elem_of_nil in H
         end; reflexivity.
Qed.

(** C9: if the trace of a run holds any drawing or saving call, then both
    input paths hold tables, and the trace begins with the backend choice
    and the two [pd.read_csv] calls, which are followed by drawing and
    saving calls only.  When an input path does not exist, in particular
    when only the brg180 input does not exist, nothing is written: the
    directory is left as it was. *)
Theorem tables_loaded_before_drawing dir :
  (forall c, c ∈ trace (final (run dir)) -> is_plt c = true ->
     (exists df1, dir !! bays29_csv = Some (CsvFile df1)) /\
     (exists df2, dir !! brg180_csv = Some (CsvFile df2)) /\
     exists rest,
       trace (final (run dir)) = load_calls ++ rest /\
       forallb is_plt rest = true) /\
  (dir !! bays29_csv = None \/ dir !! brg180_csv = None ->
     writes (trace (final (run dir))) = [] /\ fs (final (run dir)) = dir).
Proof.
  destruct (run_sound dir) as [e E1|df1 e H1 E2|df1 df2 e n f H1 H2 ? ?
                              |df1 df2 e n f H1 H2 ? ? ?|df1 df2 H1 H2 ? ?];
    cbn [final trace fs loaded all_done]; split.
  - intros c Hc Hplt. apply (load_calls_not_plt 2) in Hc. congruence.
  - done.
  - intros c Hc Hplt. apply (load_calls_not_plt 3) in Hc. congruence.
  - done.
  - intros _ _ _. split; [eauto|]. split; [eauto|].
    eexists. split; [reflexivity|].
    apply forallb_take, render_calls_plt.
  - intros [?|?]; congruence.
  - intros _ _ _. split; [eauto|]. split; [eauto|].
    eexists. split; [reflexivity|].
    rewrite forallb_app, render_calls_plt. simpl.
    apply forallb_take, render_calls_plt.
  - intros [?|?]; congruence.
  - intros _ _ _. split; [eauto|]. split; [eauto|].
    eexists. split; reflexivity.
  - intros [?|?]; congruence.
Qed.

(** ** C10: what a completed run writes *)

(** C10: a run that completes has written exactly the two files
    [bays29_benchmark.png] and [brg180_benchmark.png], in this order; every
    other path of the directory holds what it held before the run, the two
    input files among them. *)
Theorem only_outputs_written dir w :
  run dir = Ok tt w ->
  writes (trace w) = ["bays29_benchmark.png"; "brg180_benchmark.png"] /\
  (forall p, p ≠ "bays29_benchmark.png" -> p ≠ "brg180_benchmark.png" ->
     fs w !! p = dir !! p) /\
  fs w !! "bays29_benchmark_results.csv" =
    dir !! "bays29_benchmark_results.csv" /\
  fs w !! "brg180_benchmark_results.csv" =
    dir !! "brg180_benchmark_results.csv".
Proof.
  intros Hw.
  destruct (run_sound dir) as [e ?|df1 e ? ?|df1 df2 e n f ? ? ? ?
                              |df1 df2 e n f ? ? ? ? ?|df1 df2 H1 H2 C1 C2];
    try discriminate.
  injection Hw as <-.
  split; [reflexivity|].
  split; [intros p N1 N2; by apply all_done_lookup_other|].
  split; apply all_done_lookup_other; discriminate.
Qed.

(** * Further properties of the script *)

(** ** When a run completes, and which error ends it otherwise *)

(** A run completes exactly when both input paths hold tables that have
    the five required columns and whose figures lay out. *)
Theorem run_completes_iff dir :
  (exists w, run dir = Ok tt w) <->
  (exists df1 df2,
     dir !! "bays29_benchmark_results.csv" = Some (CsvFile df1) /\
     dir !! "brg180_benchmark_results.csv" = Some (CsvFile df2) /\
     has_columns df1 = true /\ has_columns df2 = true /\
     fits lays_out (draft_of bays29 df1) = true /\
     fits lays_out (draft_of brg180 df2) = true).
Proof.
  split.
  - intros [w Hw].
    destruct (run_sound dir) as [e ?|df1 e ? ?|df1 df2 e n f ? ? ? ?
                                |df1 df2 e n f ? ? ? ? ?|df1 df2 H1 H2 C1 C2];
      try discriminate.
    apply block_error_none in C1 as [C1 F1].
    apply block_error_none in C2 as [C2 F2].
    by exists df1, df2.
  - intros (df1 & df2 & H1 & H2 & C1 & C2 & F1 & F2).
    eexists. apply (run_ok dir df1 df2); try done;
      by apply block_error_none.
Qed.

(** The error of a run is the first one in program order: what the bays29
    path holds is looked at first, then what the brg180 path holds, then
    the columns of the bays29 table, then the layout of the bays29 figure,
    then the columns of the brg180 table, then the layout of the brg180
    figure.  So an unreadable brg180 file hides a bays29 table without its
    columns, and a bays29 block that raises hides a brg180 table without a
    column. *)
Theorem error_follows_program_order dir :
  (forall e,
     read_error "bays29_benchmark_results.csv"
       (dir !! "bays29_benchmark_results.csv") = Some e ->
     exists w, run dir = Raise e w) /\
  (forall df1 e,
     dir !! "bays29_benchmark_results.csv" = Some (CsvFile df1) ->
     read_error "brg180_benchmark_results.csv"
       (dir !! "brg180_benchmark_results.csv") = Some e ->
     exists w, run dir = Raise e w) /\
  (forall df1 df2 k,
     dir !! "bays29_benchmark_results.csv" = Some (CsvFile df1) ->
     dir !! "brg180_benchmark_results.csv" = Some (CsvFile df2) ->
     first_missing df1 = Some k ->
     exists w, run dir = Raise (KeyError k) w) /\
  (forall df1 df2,
     dir !! "bays29_benchmark_results.csv" = Some (CsvFile df1) ->
     dir !! "brg180_benchmark_results.csv" = Some (CsvFile df2) ->
     has_columns df1 = true ->
     fits lays_out (draft_of bays29 df1) = false ->
     exists w, run dir = Raise ValueError w) /\
  (forall df1 df2 k,
     dir !! "bays29_benchmark_results.csv" = Some (CsvFile df1) ->
     dir !! "brg180_benchmark_results.csv" = Some (CsvFile df2) ->
     has_columns df1 = true ->
     fits lays_out (draft_of bays29 df1) = true ->
     first_missing df2 = Some k ->
     exists w, run dir = Raise (KeyError k) w) /\
  (forall df1 df2,
     dir !! "bays29_benchmark_results.csv" = Some (CsvFile df1) ->
     dir !! "brg180_benchmark_results.csv" = Some (CsvFile df2) ->
     has_columns df1 = true ->
     fits lays_out (draft_of bays29 df1) = true ->
     has_columns df2 = true ->
     fits lays_out (draft_of brg180 df2) = false ->
     exists w, run dir = Raise ValueError w).
Proof.
  repeat split.
  - intros e E1. eexists. unfold run, analysis.
    apply (bind_raise _ _ _ _ _ (load_raise_bays29 _ _ E1)).
  - intros df1 e H1 E2. eexists. unfold run, analysis.
    apply (bind_raise _ _ _ _ _ (load_raise_brg180 _ _ _ H1 E2)).
  - intros df1 df2 k H1 H2 M1.
    destruct (run_bays29_raise _ _ _ _ H1 H2 (block_error_key bays29 _ _ M1))
      as (n & f & _ & ->). eauto.
  - intros df1 df2 H1 H2 C1 F1.
    destruct (run_bays29_raise _ _ _ _ H1 H2
                (block_error_value bays29 _ C1 F1))
      as (n & f & _ & ->). eauto.
  - intros df1 df2 k H1 H2 C1 F1 M2.
    assert (E1 : block_error bays29 df1 = None)
      by (by apply block_error_none).
    destruct (run_brg180_raise _ _ _ _ H1 H2 E1
                (block_error_key brg180 _ _ M2))
      as (n & f & _ & ->). eauto.
  - intros df1 df2 H1 H2 C1 F1 C2 F2.
    assert (E1 : block_error bays29 df1 = None)
      by (by apply block_error_none).
    destruct (run_brg180_raise _ _ _ _ H1 H2 E1
                (block_error_value brg180 _ C2 F2))
      as (n & f & _ & ->). eauto.
Qed.

Lemma render_value_error i df w :
  (exists w', render i df w = Raise ValueError w') <->
  has_columns df = true /\ fits lays_out (draft_of i df) = false.
Proof.
  split.
  - intros [w' Hr]. destruct (block_error i df) as [e|] eqn:E.
    + destruct (render_fails i df w e E) as (n & f & _ & Hr').
      rewrite Hr' in Hr. injection Hr as -> _.
      destruct (block_error_some _ _ _ E) as [(k & _ & ?)|(C & F & _)];
        [discriminate|done].
    + rewrite (render_succeeds _ _ _ E) in Hr. discriminate.
  - intros [C F].
    destruct (render_fails i df w _ (block_error_value i df C F))
      as (n & f & _ & ->). eauto.
Qed.

(** [ValueError] comes from [plt.tight_layout] alone: a block raises it
    exactly when its table has the five required columns and the figure
    drawn from it does not lay out, and a run ends in it exactly when that
    happens in the bays29 block, or in the brg180 block after the bays29
    block has completed.  The [plt.plot] and [plt.subplot] calls never
    raise it: the two columns of a plot come from one table and the indices
    1 and 2 lie in the 1 x 2 grid. *)
Theorem value_error_comes_from_layout dir df w :
  ((exists w', render_bays29 df w = Raise ValueError w') <->
   has_columns df = true /\ fits lays_out (draft_of bays29 df) = false) /\
  ((exists w', render_brg180 df w = Raise ValueError w') <->
   has_columns df = true /\ fits lays_out (draft_of brg180 df) = false) /\
  ((exists w', run dir = Raise ValueError w') <->
   exists df1 df2,
     dir !! "bays29_benchmark_results.csv" = Some (CsvFile df1) /\
     dir !! "brg180_benchmark_results.csv" = Some (CsvFile df2) /\
     has_columns df1 = true /\
     (fits lays_out (draft_of bays29 df1) = false \/
      fits lays_out (draft_of bays29 df1) = true /\
      has_columns df2 = true /\
      fits lays_out (draft_of brg180 df2) = false)).
Proof.
  rewrite render_bays29_eq, render_brg180_eq.
  split; [apply render_value_error|]. split; [apply render_value_error|].
  split.
  - intros [w' Hw].
    destruct (run_sound dir) as [e E1|df1 e H1 E2|df1 df2 e n f H1 H2 M1 ?
                                |df1 df2 e n f H1 H2 M1 M2 ?|df1 df2 ? ? ? ?];
      try discriminate.
    + injection Hw as -> _. by destruct (dir !! bays29_csv) as [[]|].
    + injection Hw as -> _. by destruct (dir !! brg180_csv) as [[]|].
    + injection Hw as -> _.
      destruct (block_error_some _ _ _ M1) as [(k & _ & ?)|(C & F & _)];
        [discriminate|].
      exists df1, df2. repeat split; try done. by left.
    + injection Hw as -> _.
      apply block_error_none in M1 as [C1 F1].
      destruct (block_error_some _ _ _ M2) as [(k & _ & ?)|(C & F & _)];
        [discriminate|].
      exists df1, df2. repeat split; try done. by right.
  - intros (df1 & df2 & H1 & H2 & C1 & [F1|(F1 & C2 & F2)]).
    + destruct (run_bays29_raise _ _ _ _ H1 H2
                  (block_error_value bays29 _ C1 F1))
        as (n & f & _ & ->). eauto.
    + assert (E1 : block_error bays29 df1 = None)
        by (by apply block_error_none).
      destruct (run_brg180_raise _ _ _ _ H1 H2 E1
                  (block_error_value brg180 _ C2 F2))
        as (n & f & _ & ->). eauto.
Qed.

(** ** The column named by the error *)

Lemma find_first {A} (p : A -> bool) pre x post :
  (forall y, y ∈ pre -> p y = false) ->
  p x = true ->
  List.find p (pre ++ x :: post) = Some x.
Proof.
  intros Hpre Hx. induction pre as [|y pre IH]; simpl.
  - by rewrite Hx.
  - rewrite (Hpre y) by apply list_elem_of_here.
    apply IH. intros z Hz. apply Hpre. by apply list_elem_of_further.
Qed.

Lemma has_column_present df key :
  is_Some (pd.column df key) -> has_column df key = true.
Proof.
  intros [c Hc].
  destruct (column_cases df key) as [(_ & _ & H)|[H _]]; [done|congruence].
Qed.

Lemma has_column_absent df key :
  pd.column df key = None -> has_column df key = false.
Proof.
  intros Hc.
  destruct (column_cases df key) as [(c & H & _)|[_ H]]; [congruence|done].
Qed.

(** The [KeyError] of a block names the first column, in the order [Run],
    [2-opt Distance], [Swap Distance], [2-opt Time (µs)], [Swap Time (µs)],
    that the table lacks: when every required column before [k] is present
    and [k] is not, both blocks raise [KeyError k] in any world, whatever
    later columns are absent as well. *)
Theorem first_absent_column_is_reported df w pre k post :
  ["Run"; "2-opt Distance"; "Swap Distance"; "2-opt Time (µs)";
   "Swap Time (µs)"] = pre ++ k :: post ->
  (forall c, c ∈ pre -> is_Some (pd.column df c)) ->
  pd.column df k = None ->
  (exists w', render_bays29 df w = Raise (KeyError k) w') /\
  (exists w', render_brg180 df w = Raise (KeyError k) w').
Proof.
  intros Hsplit Hpre Hk.
  assert (M : first_missing df = Some k).
  { unfold first_missing, required, header. rewrite Hsplit.
    apply find_first.
    - intros c Hc. by rewrite (has_column_present _ _ (Hpre c Hc)).
    - by rewrite (has_column_absent _ _ Hk). }
  rewrite render_bays29_eq, render_brg180_eq. split.
  - destruct (render_raise bays29 df w k M) as (n & f & _ & ->). eauto.
  - destruct (render_raise brg180 df w k M) as (n & f & _ & ->). eauto.
Qed.

(** ** What a block touches *)

Lemma render_fs i df w p :
  p ≠ output i -> fs (final (render i df w)) !! p = fs w !! p.
Proof.
  intros Hp. destruct (block_error i df) as [e|] eqn:M.
  - by destruct (render_fails i df w e M) as (n & f & _ & ->).
  - rewrite (render_succeeds _ _ _ M). simpl. by rewrite lookup_insert_ne.
Qed.

Lemma render_backend i df w : backend (final (render i df w)) = backend w.
Proof.
  destruct (block_error i df) as [e|] eqn:M.
  - by destruct (render_fails i df w e M) as (n & f & _ & ->).
  - by rewrite (render_succeeds _ _ _ M).
Qed.

Lemma render_raise_fs i df w e w' :
  render i df w = Raise e w' -> fs w' = fs w.
Proof.
  destruct (block_error i df) as [e0|] eqn:M.
  - destruct (render_fails i df w e0 M) as (n & f & _ & ->).
    by intros [= _ <-].
  - rewrite (render_succeeds _ _ _ M). discriminate.
Qed.

(** In any world and however it ends, a block leaves every path other than
    its own PNG as it was, and leaves the backend as it was; a block that
    raises leaves the whole directory as it was, its own PNG path
    included. *)
Theorem block_touches_only_its_output df w :
  (forall p, p ≠ "bays29_benchmark.png" ->
     fs (final (render_bays29 df w)) !! p = fs w !! p) /\
  (forall p, p ≠ "brg180_benchmark.png" ->
     fs (final (render_brg180 df w)) !! p = fs w !! p) /\
  (forall e w', render_bays29 df w = Raise e w' \/
                render_brg180 df w = Raise e w' -> fs w' = fs w) /\
  backend (final (render_bays29 df w)) = backend w /\
  backend (final (render_brg180 df w)) = backend w.
Proof.
  rewrite render_bays29_eq, render_brg180_eq.
  split; [intros p Hp; by apply render_fs|].
  split; [intros p Hp; by apply render_fs|].
  split; [intros e w' [H|H]; by eapply render_raise_fs|].
  split; apply render_backend.
Qed.

(** The image a block saves is a function of its table alone: in any two
    worlds, whatever figures are open in them and whatever their
    directories hold, a block given a table with the five required columns
    whose figure lays out saves the same image; and in a completed run
    [brg180_benchmark.png] holds the image the brg180 block saves on its
    own in a fresh interpreter. *)
Theorem image_depends_on_table_only df w1 w2 :
  has_columns df = true ->
  (fits lays_out (draft_of bays29 df) = true ->
   exists img,
     fs (final (render_bays29 df w1)) !! "bays29_benchmark.png" =
       Some (PngFile img) /\
     fs (final (render_bays29 df w2)) !! "bays29_benchmark.png" =
       Some (PngFile img)) /\
  (fits lays_out (draft_of brg180 df) = true ->
   exists img,
     fs (final (render_brg180 df w1)) !! "brg180_benchmark.png" =
       Some (PngFile img) /\
     fs (final (render_brg180 df w2)) !! "brg180_benchmark.png" =
       Some (PngFile img)) /\
  (forall dir df' w,
     dir !! "bays29_benchmark_results.csv" = Some (CsvFile df') ->
     dir !! "brg180_benchmark_results.csv" = Some (CsvFile df) ->
     run dir = Ok tt w ->
     fs w !! "brg180_benchmark.png" =
     fs (final (render_brg180 df (boot ∅))) !! "brg180_benchmark.png").
Proof.
  intros C. rewrite render_bays29_eq, !render_brg180_eq.
  split; [|split].
  - intros F. rewrite !(render_complete _ _ _ C F). simpl.
    exists (chart_of bays29 df). by rewrite !lookup_insert_eq.
  - intros F. rewrite !(render_complete _ _ _ C F). simpl.
    exists (chart_of brg180 df). by rewrite !lookup_insert_eq.
  - intros dir df' w H1 H2 Hw.
    destruct (run_sound dir) as [e ?|df1 e ? ?|df1 df2 e n f ? ? ? ?
                                |df1 df2 e n f ? ? ? ? ?|df1 df2 H1' H2' E1 E2];
      try discriminate.
    injection Hw as <-.
    assert (df2 = df) as ->.
    { unfold brg180_csv in H2'. rewrite H2 in H2'. by injection H2'. }
    rewrite (render_succeeds _ _ _ E2). simpl.
    by rewrite !lookup_insert_eq.
Qed.

(** ** The figures a run saves *)

(** Every figure a run saves is 14 by 6 with a tight layout and has exactly
    two plot areas, at positions 1 and 2 of a 1 x 2 grid.  Both have the
    x-axis label [Run], the grid switched on and a legend; the left one has
    the y-axis label [Distance] and the two distance series, the right one
    the two time series, each series listed in the legend under the name of
    its column. *)
Theorem saved_figure_layout dir p :
  p ∈ writes (trace (final (run dir))) ->
  exists img L R,
    fs (final (run dir)) !! p = Some (PngFile img) /\
    get_figsize img = Some (14, 6)%Z /\ tight img = true /\
    get_axes img = [L; R] /\
    get_geometry L = (1, 2, 1)%nat /\ get_geometry R = (1, 2, 2)%nat /\
    get_xlabel L = "Run" /\ get_xlabel R = "Run" /\
    get_ylabel L = "Distance" /\
    get_grid L = true /\ get_grid R = true /\
    map get_label (get_lines L) = ["2-opt Distance"; "Swap Distance"] /\
    map get_label (get_lines R) = ["2-opt Time (µs)"; "Swap Time (µs)"] /\
    get_legend L = Some (map get_label (get_lines L)) /\
    get_legend R = Some (map get_label (get_lines R)).
Proof.
  intros Hp. destruct (saved_images dir p Hp) as (i & df & _ & _ & _ & Hf).
  eexists _, _, _. split; [exact Hf|]. repeat split; reflexivity.
Qed.

(** The titles of a saved figure name the instance of the file it is saved
    to: the figure saved to [bays29_benchmark.png] is titled for bays29 and
    the one saved to [brg180_benchmark.png] for brg180. *)
Theorem titles_name_the_instance dir img :
  ("bays29_benchmark.png" ∈ writes (trace (final (run dir))) ->
   fs (final (run dir)) !! "bays29_benchmark.png" = Some (PngFile img) ->
   map get_title (get_axes img) =
     ["Distances for bays29 Instance"; "Times for bays29 Instance"]) /\
  ("brg180_benchmark.png" ∈ writes (trace (final (run dir))) ->
   fs (final (run dir)) !! "brg180_benchmark.png" = Some (PngFile img) ->
   map get_title (get_axes img) =
     ["Distances for brg180 Instance"; "Times for brg180 Instance"]).
Proof.
  split; intros Hp Hf;
    destruct (saved_images dir _ Hp) as (i & df & [-> | ->] & Ho & _ & Hf');
    try discriminate Ho;
    rewrite Hf' in Hf; injection Hf as <-; reflexivity.
Qed.

(** ** The backend and the directory, however the run ends *)

Lemma plt_calls_not_use name l :
  forallb is_plt l = true -> call_use name ∉ l.
Proof.
  intros H Hin. rewrite forallb_forall in H.
  apply list_elem_of_In in Hin. by specialize (H _ Hin).
Qed.

(** However a run ends, its first library call is [matplotlib.use('Agg')]
    and the backend is [Agg] when it ends: nothing is drawn before the
    headless backend is chosen and nothing changes it afterwards. *)
Theorem backend_is_agg dir :
  backend (final (run dir)) = Some "Agg" /\
  exists t, trace (final (run dir)) = call_use "Agg" :: t /\
            call_use "Agg" ∉ t.
Proof.
  assert (Hreads : forall rest,
    forallb is_plt rest = true ->
    call_use "Agg" ∉
      call_read_csv bays29_csv :: call_read_csv brg180_csv :: rest).
  { intros rest Hrest Hin. rewrite !elem_of_cons in Hin.
    destruct Hin as [?|[?|Hin]]; [discriminate..|].
    by apply (plt_calls_not_use "Agg" rest). }
  destruct (run_sound dir) as [e ?|df1 e ? ?|df1 df2 e n f ? ? ? Hn
                              |df1 df2 e n f ? ? ? ? Hn|df1 df2 ? ? ? ?];
    (split; [reflexivity|]).
  - exists [call_read_csv bays29_csv]. split; [reflexivity|].
    intros Hin. apply list_elem_of_singleton in Hin. discriminate.
  - eexists. split; [reflexivity|]. by apply (Hreads []).
  - eexists. split; [reflexivity|].
    apply Hreads, forallb_take, render_calls_plt.
  - eexists. split; [reflexivity|]. apply Hreads.
    rewrite forallb_app, render_calls_plt. simpl.
    apply forallb_take, render_calls_plt.
  - eexists. split; [reflexivity|]. by apply Hreads.
Qed.

(** When an input path holds no table, whether the path does not exist, or
    holds a file of zero bytes, or holds an image, the run ends in an error
    with the directory as it was, no figure ever opened and no drawing or
    saving call made. *)
Theorem unreadable_input_changes_nothing dir :
  (forall df, dir !! "bays29_benchmark_results.csv" ≠ Some (CsvFile df)) \/
  (forall df, dir !! "brg180_benchmark_results.csv" ≠ Some (CsvFile df)) ->
  exists e w,
    run dir = Raise e w /\
    fs w = dir /\ figs w = [] /\
    forall c, c ∈ trace w -> is_plt c = false.
Proof.
  intros Hbad.
  destruct (run_sound dir) as [e E1|df1 e H1 E2|df1 df2 e n f H1 H2 ? ?
                              |df1 df2 e n f H1 H2 ? ? ?|df1 df2 H1 H2 ? ?];
    try (destruct Hbad as [Hbad|Hbad];
         [by destruct (Hbad df1) | by destruct (Hbad df2)]).
  - eexists _, _. split; [reflexivity|]. repeat split.
    intros c Hc. by apply (load_calls_not_plt 2).
  - eexists _, _. split; [reflexivity|]. repeat split.
    intros c Hc. by apply (load_calls_not_plt 3).
Qed.

(** However a run ends, it has read no path other than the two CSV inputs,
    has saved to no path other than the two PNG outputs, and every path
    other than the two outputs holds what it held before the run. *)
Theorem run_touches_only_its_files dir :
  (forall p, call_read_csv p ∈ trace (final (run dir)) ->
     p = "bays29_benchmark_results.csv" \/
     p = "brg180_benchmark_results.csv") /\
  (forall p, p ∈ writes (trace (final (run dir))) ->
     p = "bays29_benchmark.png" \/ p = "brg180_benchmark.png") /\
  (forall p, p ≠ "bays29_benchmark.png" -> p ≠ "brg180_benchmark.png" ->
     fs (final (run dir)) !! p = dir !! p).
Proof.
  split; [|split].
  - intros p Hp. destruct (run_trace_prefix dir) as [n Hn].
    rewrite Hn in Hp. apply (subseteq_take n) in Hp.
    unfold script_calls, load_calls, render_calls in Hp. cbn [app] in Hp.
    repeat (apply elem_of_cons in Hp as [Hp|Hp];
            [first [discriminate | injection Hp as ->; tauto]|]).
    by apply elem_of_nil in Hp.
  - intros p Hp.
    destruct (saved_images dir p Hp) as (i & df & [-> | ->] & -> & _);
      [by left | by right].
  - intros p N1 N2.
    destruct (run_sound dir) as [e ?|df1 e ? ?|df1 df2 e n f ? ? ? ?
                                |df1 df2 e n f ? ? ? ? ?|df1 df2 ? ? ? ?];
      cbn [final fs loaded]; try done.
    + by rewrite lookup_insert_ne.
    + by apply all_done_lookup_other.
Qed.

(** ** Columns the script does not read *)

Lemma has_column_agree df df' key :
  pd.column df' key = pd.column df key ->
  has_column df' key = has_column df key.
Proof.
  intros H.
  destruct (column_cases df key) as [(c & Hc & ->)|[Hc ->]];
    rewrite Hc in H.
  - apply has_column_present. by eexists.
  - by apply has_column_absent.
Qed.

Lemma chart_of_agree i df df' :
  (forall key, key ∈ required -> pd.column df' key = pd.column df key) ->
  has_columns df' = has_columns df /\
  draft_of i df' = draft_of i df /\ chart_of i df' = chart_of i df.
Proof.
  intros H.
  assert (H0 := H "Run"). assert (H1 := H "2-opt Distance").
  assert (H2 := H "Swap Distance"). assert (H3 := H "2-opt Time (µs)").
  assert (H4 := H "Swap Time (µs)").
  unfold required, header in *.
  rewrite !elem_of_cons in H0, H1, H2, H3, H4.
  specialize (H0 ltac:(tauto)). specialize (H1 ltac:(tauto)).
  specialize (H2 ltac:(tauto)). specialize (H3 ltac:(tauto)).
  specialize (H4 ltac:(tauto)).
  split; [|split].
  - unfold has_columns, required, header. simpl.
    by rewrite !(has_column_agree df df').
  - unfold draft_of, col. by rewrite H0, H1, H2, H3, H4.
  - unfold chart_of, col. by rewrite H0, H1, H2, H3, H4.
Qed.

(** The script reads its tables by label and reads five labels only: two
    directories whose tables agree on the five required columns, whatever
    other columns the tables have and in whatever order the columns stand,
    give runs that end the same way with the same two images, when the
    figures lay out. *)
Theorem other_columns_are_ignored dir dir' df1 df2 df1' df2' :
  dir !! "bays29_benchmark_results.csv" = Some (CsvFile df1) ->
  dir !! "brg180_benchmark_results.csv" = Some (CsvFile df2) ->
  dir' !! "bays29_benchmark_results.csv" = Some (CsvFile df1') ->
  dir' !! "brg180_benchmark_results.csv" = Some (CsvFile df2') ->
  (forall key, key ∈ required ->
     pd.column df1' key = pd.column df1 key /\
     pd.column df2' key = pd.column df2 key) ->
  has_columns df1 = true ->
  has_columns df2 = true ->
  fits lays_out (draft_of bays29 df1) = true ->
  fits lays_out (draft_of brg180 df2) = true ->
  exists w w',
    run dir = Ok tt w /\ run dir' = Ok tt w' /\
    fs w' !! "bays29_benchmark.png" = fs w !! "bays29_benchmark.png" /\
    fs w' !! "brg180_benchmark.png" = fs w !! "brg180_benchmark.png".
Proof.
  intros H1 H2 H1' H2' Hagree C1 C2 F1 F2.
  destruct (chart_of_agree bays29 df1 df1') as (E1 & Ed1 & Ec1);
    [intros key Hk; by apply Hagree|].
  destruct (chart_of_agree brg180 df2 df2') as (E2 & Ed2 & Ec2);
    [intros key Hk; by apply Hagree|].
  exists (all_done dir df1 df2), (all_done dir' df1' df2').
  split; [apply run_ok; try done; by apply block_error_none|].
  split.
  { apply run_ok; [exact H1'|exact H2'|..]; apply block_error_none.
    - by rewrite E1, Ed1.
    - by rewrite E2, Ed2. }
  change "bays29_benchmark.png" with (output bays29).
  change "brg180_benchmark.png" with (output brg180).
  rewrite !all_done_lookup_bays29, !all_done_lookup_brg180.
  by rewrite Ec1, Ec2.
Qed.

End script.

(** * The script on the sample directories

    The statements below are about runs with the engine
    [spans_are_doubles]. *)

(** ** The scenario of two runs *)

Example two_runs_bays29_chart :
  fs (final (run spans_are_doubles dir_ok)) !! "bays29_benchmark.png" =
  Some (PngFile (chart bays29 [CInt 1; CInt 2]
                   [CInt 100; CInt 95] [CInt 110; CInt 105]
                   [CInt 50; CInt 55] [CInt 40; CInt 42])).
Proof. vm_compute. reflexivity. Qed.

Example two_runs_trace :
  trace (final (run spans_are_doubles dir_ok)) = script_calls.
Proof. vm_compute. reflexivity. Qed.

Example no_run_column_raises :
  exists w,
    run spans_are_doubles (dir_of (CsvFile df_no_run) (CsvFile df_two_runs)) =
      Raise (KeyError "Run") w /\
    fs w !! "bays29_benchmark.png" = None.
Proof. eexists. split; vm_compute; reflexivity. Qed.

Example huge_span_raises :
  exists w,
    run spans_are_doubles (dir_of (CsvFile df_two_runs) (CsvFile df_huge)) =
      Raise ValueError w /\
    writes (trace w) = ["bays29_benchmark.png"] /\
    figs w = [draft_of brg180 df_huge].
Proof.
  eexists. split; [vm_compute; reflexivity|].
  split; vm_compute; reflexivity.
Qed.

(** ** C1 *)

(** C1, as stated, fails: the brg180 table lacks the [Run] column and the
    bays29 table is well formed; the run raises [KeyError], yet
    [bays29_benchmark.png], absent before the run, has been written. *)
Lemma missing_column_brg180_counterexample :
  has_columns df_two_runs = true /\
  has_columns df_no_run = false /\
  dir_of (CsvFile df_two_runs) (CsvFile df_no_run) !! output bays29 = None /\
  exists w,
    run spans_are_doubles (dir_of (CsvFile df_two_runs) (CsvFile df_no_run)) =
      Raise (KeyError "Run") w /\
    writes (trace w) = ["bays29_benchmark.png"] /\
    writes (trace w) ≠ [] /\
    fs w !! "bays29_benchmark.png" =
      Some (PngFile (chart_of bays29 df_two_runs)).
Proof.
  repeat split; try reflexivity.
  eexists. split; [vm_compute; reflexivity|].
  repeat split; try discriminate; vm_compute; reflexivity.
Qed.

Lemma missing_column_raises_witness :
  exists k w,
    run spans_are_doubles (dir_of (CsvFile df_two_runs) (CsvFile df_no_run)) =
      Raise (KeyError k) w /\
    k ∈ required /\ pd.column df_no_run k = None /\
    writes (trace w) = [output bays29] /\
    fs w = <[output bays29 := PngFile (chart_of bays29 df_two_runs)]>
             (dir_of (CsvFile df_two_runs) (CsvFile df_no_run)) /\
    fs w !! output brg180 =
      dir_of (CsvFile df_two_runs) (CsvFile df_no_run) !! output brg180.
Proof.
  apply (missing_column_raises spans_are_doubles
           (dir_of (CsvFile df_two_runs) (CsvFile df_no_run))
           df_two_runs df_no_run);
    reflexivity.
Defined.

(** ** C2 *)

(** C2, as stated, fails: [bays29_benchmark_results.csv] is a file of zero
    bytes and [brg180_benchmark_results.csv] does not exist; the first
    [pd.read_csv] raises [EmptyDataError] before the missing path is ever
    opened, so the error of the run is not [FileNotFoundError]. *)
Lemma missing_input_counterexample :
  ({[bays29_csv := EmptyFile]} : gmap string file) !! brg180_csv = None /\
  exists w,
    run spans_are_doubles {[bays29_csv := EmptyFile]} =
      Raise EmptyDataError w /\
    forall path, EmptyDataError ≠ FileNotFoundError path.
Proof.
  split; [reflexivity|]. eexists. split; [vm_compute; reflexivity|].
  discriminate.
Qed.

Lemma missing_input_raises_witness :
  exists e w,
    run spans_are_doubles {[bays29_csv := EmptyFile]} = Raise e w /\
    writes (trace w) = [] /\
    fs w = {[bays29_csv := EmptyFile]} /\
    (({[bays29_csv := EmptyFile]} : gmap string file) !! bays29_csv = None ->
     e = FileNotFoundError bays29_csv) /\
    (forall df,
       ({[bays29_csv := EmptyFile]} : gmap string file) !! bays29_csv =
         Some (CsvFile df) ->
       e = FileNotFoundError brg180_csv) /\
    (({[bays29_csv := EmptyFile]} : gmap string file) !! bays29_csv =
       Some EmptyFile -> e = EmptyDataError) /\
    (forall img,
       ({[bays29_csv := EmptyFile]} : gmap string file) !! bays29_csv =
         Some (PngFile img) ->
       e = UnicodeDecodeError) /\
    (forall e',
       read_error bays29_csv
         (({[bays29_csv := EmptyFile]} : gmap string file) !! bays29_csv) =
         Some e' ->
       e = e' /\ call_read_csv brg180_csv ∉ trace w).
Proof.
  apply (missing_input_raises spans_are_doubles {[bays29_csv := EmptyFile]}).
  right. reflexivity.
Defined.

(** ** C3 *)


(** ** C4 *)

Lemma renders_run_in_order_witness :
  run spans_are_doubles (dir_of (CsvFile df_no_run) (CsvFile df_two_runs)) =
    Raise (KeyError "Run")
      (final (render_bays29 spans_are_doubles df_no_run
                (loaded (dir_of (CsvFile df_no_run) (CsvFile df_two_runs)))))
  /\
  exists n, (n < length (render_calls bays29))%nat /\
    trace (final (render_bays29 spans_are_doubles df_no_run
             (loaded (dir_of (CsvFile df_no_run) (CsvFile df_two_runs))))) =
    load_calls ++ firstn n (render_calls bays29).
Proof.
  destruct (renders_run_in_order spans_are_doubles
              (dir_of (CsvFile df_no_run) (CsvFile df_two_runs)))
    as (_ & _ & H).
  apply (H df_no_run df_two_runs
           (loaded (dir_of (CsvFile df_no_run) (CsvFile df_two_runs))));
    vm_compute; reflexivity.
Defined.

(** ** C5 *)

(** C5, as stated, fails: the bays29 table lacks the [Run] column; the
    render raises [KeyError] after [plt.figure] and the figure it opened is
    still in the registry when the error leaves the script. *)
Lemma figure_left_open_counterexample :
  exists w f,
    run spans_are_doubles (dir_of (CsvFile df_no_run) (CsvFile df_two_runs)) =
      Raise (KeyError "Run") w /\
    figs (boot (dir_of (CsvFile df_no_run) (CsvFile df_two_runs))) = [] /\
    figs w = [f] /\ figs w ≠ [].
Proof.
  eexists. eexists. split; [vm_compute; reflexivity|].
  repeat split; try reflexivity. discriminate.
Qed.

Lemma figures_released_on_success_witness :
  figs (final (render_bays29 spans_are_doubles df_two_runs (boot dir_ok))) =
  figs (boot dir_ok).
Proof.
  destruct (figures_released_on_success spans_are_doubles dir_ok
              df_two_runs (boot dir_ok))
    as (H & _ & _).
  apply H. left. vm_compute. reflexivity.
Defined.

(** ** C6 *)

Lemma header_only_renders_witness :
  exists w,
    render_bays29 spans_are_doubles df_header_only (boot ∅) = Ok tt w /\
    fs w !! "bays29_benchmark.png" =
      Some (PngFile (chart bays29 [] [] [] [] [])).
Proof.
  destruct (header_only_renders spans_are_doubles df_header_only) as (H & _);
    [reflexivity..|].
  apply H.
Defined.

(** ** C7 *)



(** ** C8 *)

(** C8, as stated, fails: on the two-run tables the y-axis of the right
    plot area of the saved bays29 figure is labelled [Time (µs)], which is
    not the string [Time]. *)
Lemma time_axis_label_counterexample :
  exists w img a,
    run spans_are_doubles dir_ok = Ok tt w /\
    fs w !! "bays29_benchmark.png" = Some (PngFile img) /\
    subplot_at 2 img = Some a /\
    get_ylabel a = "Time (µs)" /\
    get_ylabel a ≠ "Time".
Proof.
  eexists. eexists. eexists.
  split; [vm_compute; reflexivity|].
  split; [vm_compute; reflexivity|].
  split; [vm_compute; reflexivity|].
  split; [reflexivity|discriminate].
Qed.

Lemma time_axis_label_witness :
  exists img a,
    fs (final (run spans_are_doubles dir_ok)) !! "brg180_benchmark.png" =
      Some (PngFile img) /\
    subplot_at 2 img = Some a /\
    get_ylabel a = "Time (µs)".
Proof.
  apply (time_axis_label spans_are_doubles dir_ok "brg180_benchmark.png").
  vm_compute. apply list_elem_of_further, list_elem_of_here.
Defined.

(** ** C9 *)

Lemma tables_loaded_before_drawing_witness :
  writes (trace (final (run spans_are_doubles
                          {[bays29_csv := CsvFile df_two_runs]}))) = [] /\
  fs (final (run spans_are_doubles {[bays29_csv := CsvFile df_two_runs]})) =
    {[bays29_csv := CsvFile df_two_runs]}.
Proof.
  destruct (tables_loaded_before_drawing spans_are_doubles
              {[bays29_csv := CsvFile df_two_runs]}) as [_ H].
  apply H. right. reflexivity.
Defined.

(** ** C10 *)

Lemma only_outputs_written_witness :
  writes (trace (final (run spans_are_doubles dir_ok))) =
    ["bays29_benchmark.png"; "brg180_benchmark.png"] /\
  (forall p, p ≠ "bays29_benchmark.png" -> p ≠ "brg180_benchmark.png" ->
     fs (final (run spans_are_doubles dir_ok)) !! p = dir_ok !! p) /\
  fs (final (run spans_are_doubles dir_ok)) !! "bays29_benchmark_results.csv" =
    dir_ok !! "bays29_benchmark_results.csv" /\
  fs (final (run spans_are_doubles dir_ok)) !! "brg180_benchmark_results.csv" =
    dir_ok !! "brg180_benchmark_results.csv".
Proof.
  apply (only_outputs_written spans_are_doubles dir_ok
           (final (run spans_are_doubles dir_ok))).
  vm_compute. reflexivity.
Defined.

(** ** Further properties *)

Lemma run_completes_iff_witness :
  exists w, run spans_are_doubles dir_ok = Ok tt w.
Proof.
  apply (run_completes_iff spans_are_doubles dir_ok).
  exists df_two_runs, df_two_runs.
  repeat (split; [vm_compute; reflexivity|]). vm_compute. reflexivity.
Defined.

Lemma error_follows_program_order_witness :
  exists w,
    run spans_are_doubles (dir_of (CsvFile df_huge) (CsvFile df_no_run)) =
      Raise ValueError w.
Proof.
  destruct (error_follows_program_order spans_are_doubles
              (dir_of (CsvFile df_huge) (CsvFile df_no_run)))
    as (_ & _ & _ & H & _).
  apply (H df_huge df_no_run); vm_compute; reflexivity.
Defined.

Lemma value_error_comes_from_layout_witness :
  exists w',
    render_brg180 spans_are_doubles df_huge (boot dir_ok) =
      Raise ValueError w'.
Proof.
  destruct (value_error_comes_from_layout spans_are_doubles dir_ok
              df_huge (boot dir_ok)) as (_ & [_ H] & _).
  apply H. split; vm_compute; reflexivity.
Defined.

Lemma first_absent_column_is_reported_witness :
  exists w',
    render_bays29 spans_are_doubles
      {| columns := ["Run"; "2-opt Distance"; "Swap Time (µs)"];
         rows := [[CInt 1; CInt 100; CInt 40]] |} (boot ∅) =
    Raise (KeyError "Swap Distance") w'.
Proof.
  destruct (first_absent_column_is_reported spans_are_doubles
              {| columns := ["Run"; "2-opt Distance"; "Swap Time (µs)"];
                 rows := [[CInt 1; CInt 100; CInt 40]] |} (boot ∅)
              ["Run"; "2-opt Distance"] "Swap Distance"
              ["2-opt Time (µs)"; "Swap Time (µs)"]) as [H _].
  - reflexivity.
  - intros c Hc. rewrite !elem_of_cons in Hc.
    destruct Hc as [->|[->|Hc]]; [by eexists..|by apply elem_of_nil in Hc].
  - reflexivity.
  - exact H.
Defined.

Lemma block_touches_only_its_output_witness :
  fs (final (render_bays29 spans_are_doubles df_two_runs (boot dir_ok)))
    !! "bays29_benchmark_results.csv" =
  fs (boot dir_ok) !! "bays29_benchmark_results.csv".
Proof.
  destruct (block_touches_only_its_output spans_are_doubles
              df_two_runs (boot dir_ok))
    as (H & _).
  apply H. discriminate.
Defined.

Lemma image_depends_on_table_only_witness :
  exists img,
    fs (final (render_bays29 spans_are_doubles df_two_runs (boot ∅)))
      !! "bays29_benchmark.png" = Some (PngFile img) /\
    fs (final (render_bays29 spans_are_doubles df_two_runs
                 {| fs := dir_ok; backend := None;
                    figs := [new_figure None; new_figure (Some (3, 4)%Z)];
                    trace := [] |})) !! "bays29_benchmark.png"
      = Some (PngFile img).
Proof.
  destruct (image_depends_on_table_only spans_are_doubles
              df_two_runs (boot ∅)
              {| fs := dir_ok; backend := None;
                 figs := [new_figure None; new_figure (Some (3, 4)%Z)];
                 trace := [] |}) as (H & _).
  - reflexivity.
  - apply H. vm_compute. reflexivity.
Defined.

Lemma saved_figure_layout_witness :
  exists img L R,
    fs (final (run spans_are_doubles dir_ok)) !! "bays29_benchmark.png" =
      Some (PngFile img) /\
    get_figsize img = Some (14, 6)%Z /\ tight img = true /\
    get_axes img = [L; R] /\
    get_geometry L = (1, 2, 1)%nat /\ get_geometry R = (1, 2, 2)%nat /\
    get_xlabel L = "Run" /\ get_xlabel R = "Run" /\
    get_ylabel L = "Distance" /\
    get_grid L = true /\ get_grid R = true /\
    map get_label (get_lines L) = ["2-opt Distance"; "Swap Distance"] /\
    map get_label (get_lines R) = ["2-opt Time (µs)"; "Swap Time (µs)"] /\
    get_legend L = Some (map get_label (get_lines L)) /\
    get_legend R = Some (map get_label (get_lines R)).
Proof.
  apply (saved_figure_layout spans_are_doubles dir_ok "bays29_benchmark.png").
  vm_compute. apply list_elem_of_here.
Defined.

Lemma titles_name_the_instance_witness :
  map get_title (get_axes (chart_of brg180 df_two_runs)) =
    ["Distances for brg180 Instance"; "Times for brg180 Instance"].
Proof.
  destruct (titles_name_the_instance spans_are_doubles dir_ok
              (chart_of brg180 df_two_runs))
    as [_ H].
  apply H.
  - vm_compute. apply list_elem_of_further, list_elem_of_here.
  - vm_compute. reflexivity.
Defined.

Lemma unreadable_input_changes_nothing_witness :
  exists e w,
    run spans_are_doubles
      (dir_of (CsvFile df_two_runs) (PngFile (new_figure None))) =
      Raise e w /\
    fs w = dir_of (CsvFile df_two_runs) (PngFile (new_figure None)) /\
    figs w = [] /\
    forall c, c ∈ trace w -> is_plt c = false.
Proof.
  apply (unreadable_input_changes_nothing spans_are_doubles
           (dir_of (CsvFile df_two_runs) (PngFile (new_figure None)))).
  right. intros df. discriminate.
Defined.

Lemma run_touches_only_its_files_witness :
  fs (final (run spans_are_doubles
               (dir_of (CsvFile df_two_runs) (CsvFile df_no_run))))
    !! "brg180_benchmark_results.csv" =
  dir_of (CsvFile df_two_runs) (CsvFile df_no_run)
    !! "brg180_benchmark_results.csv".
Proof.
  destruct (run_touches_only_its_files spans_are_doubles
              (dir_of (CsvFile df_two_runs) (CsvFile df_no_run)))
    as (_ & _ & H).
  apply H; discriminate.
Defined.

Lemma other_columns_are_ignored_witness :
  exists w w',
    run spans_are_doubles dir_ok = Ok tt w /\
    run spans_are_doubles
      (dir_of (CsvFile df_seed_first) (CsvFile df_seed_first)) = Ok tt w' /\
    fs w' !! "bays29_benchmark.png" = fs w !! "bays29_benchmark.png" /\
    fs w' !! "brg180_benchmark.png" = fs w !! "brg180_benchmark.png".
Proof.
  apply (other_columns_are_ignored spans_are_doubles dir_ok
           (dir_of (CsvFile df_seed_first) (CsvFile df_seed_first))
           df_two_runs df_two_runs df_seed_first df_seed_first);
    try (vm_compute; reflexivity).
  intros key Hk. unfold required, header in Hk.
  rewrite !elem_of_cons in Hk.
  destruct Hk as [->|[->|[->|[->|[->|Hk]]]]];
    [split; reflexivity..| by apply elem_of_nil in Hk].
Defined.
